(** * k9sSetup tunnel management: a shallow embedding of
    [src/tunnel.py], [src/network_validator.py], [src/multi_status.py]
    and the tunnel part of [multi_connect.py].

    Python [str] values are Rocq strings holding their UTF-8 bytes, so
    [context_name.encode()] is the byte list of the string.  Python
    integers are [Z].  The state directory is two maps from context
    name to the content of its [.pid] and [.network] files; the
    [mkdir(parents=True, exist_ok=True)] of [get_tunnel_pid_file] is
    assumed to succeed and file deletion never fails.  [os.kill] and
    [subprocess.run] are parameters: the operating system's answers. *)

From Stdlib Require Import ZArith List Lia Ascii String.
From stdpp Require Import base gmap strings sorting.
Import ListNotations.
Open Scope Z_scope.

(* ================================================================= *)
(** ** [hashlib.md5], used by [get_unique_port] *)

Module MD5.

Definition mask32 : Z := 2 ^ 32 - 1.
Definition w32 (x : Z) : Z := Z.land x mask32.
Definition add32 (x y : Z) : Z := w32 (x + y).
Definition not32 (x : Z) : Z := Z.lxor x mask32.
Definition rotl32 (x : Z) (c : Z) : Z :=
  w32 (Z.lor (Z.shiftl x c) (Z.shiftr x (32 - c))).

(** The per-step constants [floor(|sin(i+1)| * 2^32)]. *)
Definition K : list Z :=
  [3614090360; 3905402710; 606105819; 3250441966; 4118548399; 1200080426;
   2821735955; 4249261313; 1770035416; 2336552879; 4294925233; 2304563134;
   1804603682; 4254626195; 2792965006; 1236535329; 4129170786; 3225465664;
   643717713; 3921069994; 3593408605; 38016083; 3634488961; 3889429448;
   568446438; 3275163606; 4107603335; 1163531501; 2850285829; 4243563512;
   1735328473; 2368359562; 4294588738; 2272392833; 1839030562; 4259657740;
   2763975236; 1272893353; 4139469664; 3200236656; 681279174; 3936430074;
   3572445317; 76029189; 3654602809; 3873151461; 530742520; 3299628645;
   4096336452; 1126891415; 2878612391; 4237533241; 1700485571; 2399980690;
   4293915773; 2240044497; 1873313359; 4264355552; 2734768916; 1309151649;
   4149444226; 3174756917; 718787259; 3951481745].

(** The per-step rotation amounts. *)
Definition R : list Z :=
  [7; 12; 17; 22; 7; 12; 17; 22; 7; 12; 17; 22; 7; 12; 17; 22;
   5; 9; 14; 20; 5; 9; 14; 20; 5; 9; 14; 20; 5; 9; 14; 20;
   4; 11; 16; 23; 4; 11; 16; 23; 4; 11; 16; 23; 4; 11; 16; 23;
   6; 10; 15; 21; 6; 10; 15; 21; 6; 10; 15; 21; 6; 10; 15; 21].

(** Little-endian encoding of [x] on [n] bytes. *)
Fixpoint le_bytes (n : nat) (x : Z) : list Z :=
  match n with
  | O => []
  | S n' => Z.land x 255 :: le_bytes n' (Z.shiftr x 8)
  end.

(** Message padding: [0x80], zeros up to 56 mod 64, bit length. *)
Definition pad (msg : list Z) : list Z :=
  let len := Z.of_nat (length msg) in
  msg ++ [128] ++ repeat 0 (Z.to_nat ((55 - len) mod 64))
      ++ le_bytes 8 (Z.land (8 * len) (2 ^ 64 - 1)).

Definition word_at (blk : list Z) (j : nat) : Z :=
  nth (4 * j) blk 0 + nth (4 * j + 1) blk 0 * 2 ^ 8
  + nth (4 * j + 2) blk 0 * 2 ^ 16 + nth (4 * j + 3) blk 0 * 2 ^ 24.

Definition step (blk : list Z) (st : Z * Z * Z * Z) (i : nat)
  : Z * Z * Z * Z :=
  let '(a, b, c, d) := st in
  let '(f, g) :=
    if (i <? 16)%nat then (Z.lor (Z.land b c) (Z.land (not32 b) d), i)
    else if (i <? 32)%nat then
      (Z.lor (Z.land d b) (Z.land (not32 d) c), ((5 * i + 1) mod 16)%nat)
    else if (i <? 48)%nat then
      (Z.lxor b (Z.lxor c d), ((3 * i + 5) mod 16)%nat)
    else (Z.lxor c (Z.lor b (not32 d)), ((7 * i) mod 16)%nat) in
  let f' := add32 (add32 (add32 f a) (nth i K 0)) (word_at blk g) in
  (d, add32 b (rotl32 f' (nth i R 0)), b, c).

Definition compress (st : Z * Z * Z * Z) (blk : list Z) : Z * Z * Z * Z :=
  let '(a', b', c', d') := fold_left (step blk) (seq 0 64) st in
  let '(a, b, c, d) := st in
  (add32 a a', add32 b b', add32 c c', add32 d d').

Fixpoint blocks (n : nat) (l : list Z) : list (list Z) :=
  match n with
  | O => []
  | S n' => firstn 64 l :: blocks n' (skipn 64 l)
  end.

Definition init : Z * Z * Z * Z :=
  (1732584193, 4023233417, 2562383102, 271733878).

(** [hashlib.md5(data).digest()]: 16 bytes. *)
Definition digest (data : list Z) : list Z :=
  let p := pad data in
  let '(a, b, c, d) :=
    fold_left compress (blocks (length p / 64) p) init in
  le_bytes 4 a ++ le_bytes 4 b ++ le_bytes 4 c ++ le_bytes 4 d.

End MD5.

(** [s.encode()]: the UTF-8 bytes of the string. *)
Definition encode (s : string) : list Z :=
  map (fun c => Z.of_N (N_of_ascii c)) (list_ascii_of_string s).

(** [hexdigest()]: two hex digits per byte, high nibble first; the
    digits are kept as their values 0..15. *)
Definition hexdigest (bytes : list Z) : list Z :=
  flat_map (fun b => [b / 16; b mod 16]) bytes.

(** [int(digits, 16)] on a non-empty run of hex digits. *)
Definition int_base16 (digits : list Z) : Z :=
  fold_left (fun acc d => acc * 16 + d) digits 0.

(** [get_unique_port] (tunnel.py, lines 23-51). *)
Definition get_unique_port (context_name : string)
    (port_range_start : Z) (port_range_size : Z) : Z :=
  let hash_int :=
    int_base16 (firstn 4 (hexdigest (MD5.digest (encode context_name)))) in
  port_range_start + hash_int mod port_range_size.

(* ================================================================= *)
(** ** Python strings and integers *)

Definition nl : string := String (ascii_of_nat 10) EmptyString.

(** The characters [str.strip()] removes (ASCII part of [str.isspace]). *)
Definition is_space (c : ascii) : bool :=
  let n := nat_of_ascii c in
  ((9 <=? n) && (n <=? 13))%nat || ((28 <=? n) && (n <=? 32))%nat.

Fixpoint lstrip (l : list ascii) : list ascii :=
  match l with
  | c :: r => if is_space c then lstrip r else l
  | [] => []
  end.

(** [s.strip()] *)
Definition strip (s : string) : string :=
  string_of_list_ascii (rev (lstrip (rev (lstrip (list_ascii_of_string s))))).

Definition is_digit (c : ascii) : bool :=
  let n := nat_of_ascii c in ((48 <=? n) && (n <=? 57))%nat.

Definition digit_value (c : ascii) : Z := Z.of_nat (nat_of_ascii c) - 48.

(** Decimal digits with single underscores between digits, as [int]
    accepts them; [after_digit] says whether the last character was a
    digit. *)
Fixpoint parse_digits (l : list ascii) (acc : Z) (after_digit : bool)
  : option Z :=
  match l with
  | [] => if after_digit then Some acc else None
  | c :: r =>
      if is_digit c then parse_digits r (acc * 10 + digit_value c) true
      else if (Ascii.eqb c "_"%char && after_digit)%bool
      then parse_digits r acc false
      else None
  end.

(** [int(s)] on a string: [None] is the [ValueError]. *)
Definition parse_int (s : string) : option Z :=
  match list_ascii_of_string (strip s) with
  | "-"%char :: r => option_map Z.opp (parse_digits r 0 false)
  | "+"%char :: r => parse_digits r 0 false
  | l => parse_digits l 0 false
  end.

Definition digit_char (d : Z) : ascii := ascii_of_nat (Z.to_nat (d + 48)).

Fixpoint dec_digits (fuel : nat) (n : Z) (acc : list ascii) : list ascii :=
  match fuel with
  | O => acc
  | S f =>
      if n <? 10 then digit_char n :: acc
      else dec_digits f (n / 10) (digit_char (n mod 10) :: acc)
  end.

(** [str(n)] for an integer. *)
Definition z_to_dec (n : Z) : string :=
  let a := Z.abs n in
  let ds := dec_digits (S (Z.to_nat (Z.log2 a))) a [] in
  string_of_list_ascii (if n <? 0 then "-"%char :: ds else ds).

(** [s.split()[0]]: the first whitespace-separated word. *)
Fixpoint first_word_aux (l : list ascii) : list ascii :=
  match l with
  | c :: r => if is_space c then [] else c :: first_word_aux r
  | [] => []
  end.

Definition first_word (s : string) : string :=
  string_of_list_ascii (first_word_aux (lstrip (list_ascii_of_string s))).

(* ================================================================= *)
(** ** Exceptions, processes and the state directory *)

(** The exceptions the modelled code raises or catches.
    [ProcessLookupError], [PermissionError] and [FileNotFoundError] are
    the [OSError] subclasses; [OverflowError] is what [os.kill] raises
    for a pid outside the C [pid_t] range; [TimeoutExpired] is
    [subprocess.TimeoutExpired]. *)
Inductive exn :=
| ValueError
| ProcessLookupError
| PermissionError
| FileNotFoundError
| OverflowError
| TimeoutExpired
| RuntimeError (msg : string).

Definition is_OSError (e : exn) : bool :=
  match e with
  | ProcessLookupError | PermissionError | FileNotFoundError => true
  | _ => false
  end.

(** A [subprocess.run] invocation: argument vector and [timeout=]. *)
Record command := mk_command { argv : list string; timeout : option Z }.

(** What [subprocess.run] gives back: a completed process, or an
    exception ([FileNotFoundError] when the binary is missing,
    [TimeoutExpired] when the timeout elapsed). *)
Inductive proc_result :=
| Completed (returncode : Z) (stdout stderr : string)
| Raised (e : exn).

(** Values of the YAML documents ([yaml.safe_dump] / [safe_load]). *)
Inductive yval :=
| YNone
| YBool (b : bool)
| YInt (z : Z)
| YStr (s : string).

(** A YAML mapping, as the Python dict it loads to. *)
Definition ydict := list (string * yval).

(** Contents of a [{context}.network] file: a complete document, an
    empty file ([safe_load] gives [None]), or text [safe_load]
    rejects. *)
Inductive netfile :=
| NetDoc (d : ydict)
| NetEmpty
| NetBroken.

(** The tunnel state directory: the [{context}.pid] files (text), the
    [{context}.network] files, and the log of subprocesses started. *)
Record world := mk_world {
  pid_files : gmap string string;
  network_files : gmap string netfile;
  proc_log : list command
}.

Definition set_pid_files (w : world) (m : gmap string string) : world :=
  mk_world m (network_files w) (proc_log w).
Definition set_network_files (w : world) (m : gmap string netfile) : world :=
  mk_world (pid_files w) m (proc_log w).
Definition log_command (w : world) (c : command) : world :=
  mk_world (pid_files w) (network_files w) (proc_log w ++ [c]).

(* ================================================================= *)
(** ** A state and exception monad *)

Inductive res (A : Type) := Ok (a : A) | Err (e : exn).
Arguments Ok {A} a.
Arguments Err {A} e.

Definition M (A : Type) : Type := world -> res A * world.

Definition ret {A} (a : A) : M A := fun w => (Ok a, w).
Definition raise {A} (e : exn) : M A := fun w => (Err e, w).
Definition bind {A B} (m : M A) (k : A -> M B) : M B :=
  fun w => match m w with
           | (Ok a, w') => k a w'
           | (Err e, w') => (Err e, w')
           end.

Notation "x <- m ;; k" := (bind m (fun x => k))
  (at level 100, m at next level, right associativity).
Notation "m ;; k" := (bind m (fun _ => k))
  (at level 100, right associativity).

(** [try: m except <handled exceptions>: h e]: [handler e = None]
    lets [e] propagate. *)
Definition try_except {A} (m : M A) (handler : exn -> option (M A)) : M A :=
  fun w => match m w with
           | (Ok a, w') => (Ok a, w')
           | (Err e, w') =>
               match handler e with
               | Some h => h w'
               | None => (Err e, w')
               end
           end.

(** [try: m finally: cleanup] *)
Definition try_finally {A} (m : M A) (cleanup : M unit) : M A :=
  fun w => match m w with
           | (r, w') =>
               match cleanup w' with
               | (Ok _, w'') => (r, w'')
               | (Err e, w'') => (Err e, w'')
               end
           end.

(** [int(text)] *)
Definition py_int (s : string) : M Z :=
  match parse_int s with Some z => ret z | None => raise ValueError end.

(** File primitives on the state directory. *)
Definition pid_file_exists (ctx : string) : M bool :=
  fun w => match pid_files w !! ctx with
           | Some _ => (Ok true, w)
           | None => (Ok false, w)
           end.

Definition read_pid_file (ctx : string) : M string :=
  fun w => match pid_files w !! ctx with
           | Some s => (Ok s, w)
           | None => (Err FileNotFoundError, w)
           end.

(** [pid_file.unlink(missing_ok=True)] *)
Definition unlink_pid_file (ctx : string) : M unit :=
  fun w => (Ok tt, set_pid_files w (delete ctx (pid_files w))).

(** [network_file.unlink(missing_ok=True)] *)
Definition unlink_network_file (ctx : string) : M unit :=
  fun w => (Ok tt, set_network_files w (delete ctx (network_files w))).

(** The file-system steps of a write through [open(path, 'w')]: opening
    truncates the file (it is visible, empty, from then on); the
    buffered content reaches it when the file is closed. *)
Inductive fs_op :=
| PidTruncate (ctx : string)
| PidFlush (ctx : string) (text : string)
| NetTruncate (ctx : string)
| NetFlush (ctx : string) (d : ydict).

Definition apply_op (w : world) (op : fs_op) : world :=
  match op with
  | PidTruncate ctx => set_pid_files w (<[ctx := ""%string]> (pid_files w))
  | PidFlush ctx s => set_pid_files w (<[ctx := s]> (pid_files w))
  | NetTruncate ctx => set_network_files w (<[ctx := NetEmpty]> (network_files w))
  | NetFlush ctx d => set_network_files w (<[ctx := NetDoc d]> (network_files w))
  end.

Definition run_ops (ops : list fs_op) : M unit :=
  fun w => (Ok tt, fold_left apply_op ops w).

(* ================================================================= *)
(** ** The modules, over the operating system they run against *)

Section Tunnels.

(** [os.kill(pid, sig)]: [None] when the signal was delivered, or the
    exception it raises. *)
Variable os_kill : Z -> Z -> option exn.
(** The outcome of [subprocess.run] for each command. *)
Variable subprocess_run : command -> proc_result.
(** Whether [import yaml] succeeds. *)
Variable yaml_importable : bool.
(** [PORT_RANGE_START], [PORT_RANGE_SIZE], [TARGET_PORT] from the
    configuration of [multi_connect.py]. *)
Variables PORT_RANGE_START PORT_RANGE_SIZE TARGET_PORT : Z.

(** [subprocess.run(cmd, ...)], recorded in the process log. *)
Definition run (cmd : command) : M (Z * string * string) :=
  fun w =>
    let w' := log_command w cmd in
    match subprocess_run cmd with
    | Completed rc out err => (Ok (rc, out, err), w')
    | Raised e => (Err e, w')
    end.

Definition kill (pid sig : Z) : M unit :=
  match os_kill pid sig with None => ret tt | Some e => raise e end.

(** [except (ValueError, ProcessLookupError, OSError)] *)
Definition stale_pid_error (e : exn) : bool :=
  match e with ValueError => true | _ => is_OSError e end.

(** [is_tunnel_running] (tunnel.py, lines 72-96). *)
Definition is_tunnel_running (context_name : string) : M bool :=
  ex <- pid_file_exists context_name ;;
  if negb ex then ret false else
  try_except
    (text <- read_pid_file context_name ;;
     pid <- py_int text ;;
     kill pid 0 ;;
     ret true)
    (fun e => if stale_pid_error e
              then Some (unlink_pid_file context_name ;; ret false)
              else None).

(** [kill_tunnel] (tunnel.py, lines 99-119). *)
Definition kill_tunnel (context_name : string) : M unit :=
  ex <- pid_file_exists context_name ;;
  if negb ex then ret tt else
  try_finally
    (try_except
       (text <- read_pid_file context_name ;;
        pid <- py_int text ;;
        kill pid 15)
       (fun e => if stale_pid_error e then Some (ret tt) else None))
    (unlink_pid_file context_name).

(** Python truthiness of [pid: Optional[int]]. *)
Definition pid_truthy (pid : option Z) : bool :=
  match pid with Some p => negb (p =? 0) | None => false end.

(** The file steps of [save_tunnel_pid] (tunnel.py, lines 185-197). *)
Definition save_tunnel_pid_ops (context_name : string) (pid : option Z)
  : list fs_op :=
  match pid with
  | Some p => if pid_truthy pid
              then [PidTruncate context_name; PidFlush context_name (z_to_dec p)]
              else []
  | None => []
  end.

Definition save_tunnel_pid (context_name : string) (pid : option Z) : M unit :=
  run_ops (save_tunnel_pid_ops context_name pid).

(** Python truthiness of [Optional[str]]. *)
Definition str_truthy (s : option string) : bool :=
  match s with Some x => negb (String.eqb x "") | None => false end.

(** [{k: v for k, v in metadata.items() if v is not None}] *)
Definition opt_entry (k : string) (v : option string) : ydict :=
  match v with Some s => [(k, YStr s)] | None => [] end.

(** The document [save_network_metadata] dumps: its [metadata] dict
    with the [None] values dropped. *)
Definition network_metadata_doc
    (network_type network_range sshuttle_command : option string)
    (needs_vpn : bool) (internal_ip : option string) : ydict :=
  opt_entry "network_type" network_type
  ++ opt_entry "network_range" network_range
  ++ opt_entry "sshuttle_command" sshuttle_command
  ++ [("needs_vpn", YBool needs_vpn)]
  ++ opt_entry "internal_ip" internal_ip.

(** The file steps of [save_network_metadata] (tunnel.py, lines
    218-262); an [ImportError] of [yaml] is caught and logged before
    the file is opened. *)
Definition save_network_metadata_ops (context_name : string)
    (network_type network_range sshuttle_command : option string)
    (needs_vpn : bool) (internal_ip : option string) : list fs_op :=
  if negb (str_truthy network_type) && negb needs_vpn then [] else
  let metadata := network_metadata_doc network_type network_range
                    sshuttle_command needs_vpn internal_ip in
  if yaml_importable
  then [NetTruncate context_name; NetFlush context_name metadata]
  else [].

Definition save_network_metadata (context_name : string)
    (network_type network_range sshuttle_command : option string)
    (needs_vpn : bool) (internal_ip : option string) : M unit :=
  run_ops (save_network_metadata_ops context_name network_type
             network_range sshuttle_command needs_vpn internal_ip).

(** [remove_network_metadata] (tunnel.py, lines 265-274). *)
Definition remove_network_metadata (context_name : string) : M unit :=
  unlink_network_file context_name.

(** [get_network_metadata] (network_validator.py, lines 79-111): a
    missing file, an empty document, a load error or a missing [yaml]
    all give [None]. *)
Definition get_network_metadata (context_name : string) : M (option ydict) :=
  fun w =>
    match network_files w !! context_name with
    | None => (Ok None, w)
    | Some f =>
        if yaml_importable then
          match f with
          | NetDoc d => (Ok (Some d), w)
          | NetEmpty => (Ok None, w)
          | NetBroken => (Ok None, w)
          end
        else (Ok None, w)
    end.

(** [dict.get(key)]: [None] for a missing key. *)
Definition dict_get (d : ydict) (k : string) : yval :=
  match find (fun kv => String.eqb (fst kv) k) d with
  | Some (_, v) => v
  | None => YNone
  end.

Definition yval_truthy (v : yval) : bool :=
  match v with
  | YNone => false
  | YBool b => b
  | YInt z => negb (z =? 0)
  | YStr s => negb (String.eqb s "")
  end.

(** [str(v)], as an f-string prints it. *)
Definition py_str (v : yval) : string :=
  match v with
  | YNone => "None"
  | YBool true => "True"
  | YBool false => "False"
  | YInt z => z_to_dec z
  | YStr s => s
  end.

Definition yval_eqb (v1 v2 : yval) : bool :=
  match v1, v2 with
  | YNone, YNone => true
  | YBool a, YBool b => Bool.eqb a b
  | YInt a, YInt b => a =? b
  | YStr a, YStr b => String.eqb a b
  | _, _ => false
  end.

(** [result.returncode == 0 and result.stdout.strip()] *)
Definition found (rc : Z) (out : string) : bool :=
  (rc =? 0) && negb (String.eqb (strip out) "").

(** The two [pgrep] probes of [check_sshuttle_active]. *)
Definition sshuttle_range_cmd (network_range : string) : command :=
  mk_command ["pgrep"; "-f"; ("sshuttle.*" ++ network_range)%string] (Some 2).

Definition sshuttle_any_cmd : command :=
  mk_command ["pgrep"; "-f"; "sshuttle"] (Some 2).

(** [check_sshuttle_active] (network_validator.py, lines 17-52). *)
Definition check_sshuttle_active (network_range : string) : M bool :=
  try_except
    (r1 <- run (sshuttle_range_cmd network_range) ;;
     let '(rc1, out1, _) := r1 in
     if found rc1 out1 then ret true else
     r2 <- run sshuttle_any_cmd ;;
     let '(rc2, out2, _) := r2 in
     if found rc2 out2 then ret true else ret false)
    (fun e => match e with
              | TimeoutExpired | FileNotFoundError => Some (ret false)
              | _ => None
              end).

(** [validate_context_network] (network_validator.py, lines 114-151). *)
Definition validate_context_network (context_name : string)
  : M (bool * option string) :=
  meta <- get_network_metadata context_name ;;
  match meta with
  | None | Some [] => ret (true, None)
  | Some metadata =>
      let network_type := dict_get metadata "network_type" in
      if yval_truthy (dict_get metadata "needs_vpn")
      then ret (false, Some "This cluster requires VPN connection"%string)
      else if yval_eqb network_type (YStr "sshuttle") then
        let network_range := dict_get metadata "network_range" in
        let sshuttle_cmd :=
          match find (fun kv => String.eqb (fst kv) "sshuttle_command") metadata with
          | Some (_, v) => v
          | None => YStr ("sshuttle -v -r <gateway> " ++ py_str network_range)%string
          end in
        active <- check_sshuttle_active (py_str network_range) ;;
        if negb active then
          ret (false, Some ("This cluster requires sshuttle for "
                            ++ py_str network_range ++ nl
                            ++ "  Run: " ++ py_str sshuttle_cmd)%string)
        else ret (true, None)
      else ret (true, None)
  end.

(** [get_current_context] (multi_status.py, lines 18-36). *)
Definition current_context_cmd : command :=
  mk_command ["kubectl"; "config"; "current-context"] (Some 5).

Definition get_current_context : M (option string) :=
  try_except
    (r <- run current_context_cmd ;;
     let '(rc, out, _) := r in
     if rc =? 0 then ret (Some (strip out)) else ret None)
    (fun e => match e with
              | TimeoutExpired | FileNotFoundError => Some (ret None)
              | _ => None
              end).

(** [get_tunnel_pid] (multi_status.py, lines 39-64). *)
Definition get_tunnel_pid (context_name : string) : M (option Z) :=
  ex <- pid_file_exists context_name ;;
  if negb ex then ret None else
  try_except
    (text <- read_pid_file context_name ;;
     pid <- py_int text ;;
     kill pid 0 ;;
     ret (Some pid))
    (fun e => if stale_pid_error e then Some (ret None) else None).

(** The [ssh -f -N ... -L local:ip:remote host] command of
    [create_tunnel] and the [pgrep] that looks for its process. *)
Definition forward_spec (internal_ip : string) (local_port remote_port : Z)
  : string :=
  (z_to_dec local_port ++ ":" ++ internal_ip ++ ":" ++ z_to_dec remote_port)%string.

Definition ssh_tunnel_cmd (ssh_host internal_ip : string)
    (local_port remote_port : Z) : command :=
  mk_command ["ssh"; "-f"; "-N"; "-o"; "ExitOnForwardFailure=yes";
              "-o"; "ServerAliveInterval=60"; "-L";
              forward_spec internal_ip local_port remote_port; ssh_host]
             None.

Definition pgrep_tunnel_cmd (internal_ip : string) (local_port remote_port : Z)
  : command :=
  mk_command ["pgrep"; "-f";
              ("ssh.*" ++ forward_spec internal_ip local_port remote_port)%string]
             None.

(** [create_tunnel] (tunnel.py, lines 140-182); the half-second
    [time.sleep] has no effect on the state. *)
Definition create_tunnel (ssh_host internal_ip : string)
    (local_port remote_port : Z) : M (option Z) :=
  r <- run (ssh_tunnel_cmd ssh_host internal_ip local_port remote_port) ;;
  let '(rc, _, err) := r in
  if negb (rc =? 0)
  then raise (RuntimeError ("Failed to create SSH tunnel: " ++ err)%string)
  else
  f <- run (pgrep_tunnel_cmd internal_ip local_port remote_port) ;;
  let '(frc, fout, _) := f in
  if found frc fout
  then (pid <- py_int (first_word (strip fout)) ;; ret (Some pid))
  else ret None.

(** The [cluster] dict [connect_cluster] receives; [cluster_internal_ip]
    is the address its [host_info] resolves to. *)
Record cluster := mk_cluster {
  company : string;
  host_alias : string;
  cluster_internal_ip : string;
  network_type : option string;
  network_range : option string;
  needs_vpn : bool
}.

(** Modelled from the spec: [fetch_and_merge_kubeconfig] (module
    [fetch_k3s_config], not part of the sources).  The spec (sections 1
    and 4.4) describes it as the collaborator returning the context
    name [{company}-{host_alias}] and the internal IP of the host, the
    local port being the one the Port Allocator derives from the
    context name. *)
Definition fetch_and_merge_kubeconfig (cl : cluster) : M (string * Z * string) :=
  let context_name := (company cl ++ "-" ++ host_alias cl)%string in
  ret (context_name,
       get_unique_port context_name PORT_RANGE_START PORT_RANGE_SIZE,
       cluster_internal_ip cl).

(** The [result] dict of [connect_cluster]. *)
Record conn_result := mk_conn_result {
  success : bool;
  context_name : string;
  local_port : option Z;
  internal_ip : option string;
  tunnel_pid : option Z;
  error : option exn
}.

(** [except Exception as e: result['error'] = str(e)], keeping the
    fields [result] had received when [e] was raised. *)
Definition catch_into (r : conn_result) (m : M conn_result) : M conn_result :=
  try_except m (fun e => Some (ret (mk_conn_result (success r) (context_name r)
                   (local_port r) (internal_ip r) (tunnel_pid r) (Some e)))).

Definition opt_py_str (s : option string) : string :=
  match s with Some x => x | None => "None" end.

(** The "Setup tunnel" block of [connect_cluster]: the fast path
    re-reads the pid file after [is_tunnel_running]. *)
Definition setup_tunnel (cl : cluster) (ctx : string) (port : Z)
    (ip : string) : M (option Z) :=
  running <- is_tunnel_running ctx ;;
  if running then
    ex <- pid_file_exists ctx ;;
    if ex then (text <- read_pid_file ctx ;; pid <- py_int text ;; ret (Some pid))
    else ret None
  else
    pid <- create_tunnel (host_alias cl) ip port TARGET_PORT ;;
    save_tunnel_pid ctx pid ;;
    ret pid.

(** The network-metadata block at the end of [connect_cluster]. *)
Definition save_cluster_network (cl : cluster) (ctx ip : string) : M unit :=
  if str_truthy (network_type cl) || needs_vpn cl then
    let sshuttle_cmd :=
      if bool_decide (network_type cl = Some "sshuttle"%string)
      then Some ("sshuttle -v -r helio@100.64.5.10 "
                 ++ opt_py_str (network_range cl))%string
      else None in
    save_network_metadata ctx (network_type cl) (network_range cl)
      sshuttle_cmd (needs_vpn cl) (Some ip)
  else ret tt.

(** [connect_cluster] (multi_connect.py, lines 213-302). *)
Definition connect_cluster (cl : cluster) : M conn_result :=
  let r0 := mk_conn_result false (company cl ++ "-" ++ host_alias cl)%string
              None None None None in
  catch_into r0
    (f <- fetch_and_merge_kubeconfig cl ;;
     let '(ctx, port, ip) := f in
     let r1 := mk_conn_result false (context_name r0) (Some port) (Some ip)
                 None None in
     catch_into r1
       (pid <- setup_tunnel cl ctx port ip ;;
        let r2 := mk_conn_result false (context_name r0) (Some port) (Some ip)
                    pid None in
        catch_into r2
          (save_cluster_network cl ctx ip ;;
           ret (mk_conn_result true (context_name r0) (Some port) (Some ip)
                  pid None)))).

(** The context names of [state_dir.glob("*.pid")] ([pid_file.stem]),
    in the order the directory lists them; a missing state directory
    has no [.pid] file. *)
Definition pid_contexts (w : world) : list string :=
  map fst (map_to_list (pid_files w)).

Fixpoint kill_tunnels (ctxs : list string) : M unit :=
  match ctxs with
  | [] => ret tt
  | c :: r => kill_tunnel c ;; kill_tunnels r
  end.

(** [kill_all_tunnels] (tunnel.py, lines 122-137): the loop runs over
    the names [glob] listed before any file is deleted. *)
Definition kill_all_tunnels : M unit :=
  fun w => kill_tunnels (pid_contexts w) w.

(** One entry of [list_all_contexts]. *)
Record ctx_status := mk_ctx_status {
  name : string;
  tunnel_running : bool;
  status_tunnel_pid : option Z;
  status_local_port : Z;
  network_metadata : option ydict
}.

(** [get_tunnel_port] (multi_status.py, lines 67-79): [get_unique_port]
    with its default range. *)
Definition get_tunnel_port (context_name : string) : Z :=
  get_unique_port context_name 16443 10000.

(** The body of the loop of [list_all_contexts]. *)
Definition context_status (context_name : string) : M ctx_status :=
  running <- is_tunnel_running context_name ;;
  pid <- (if running then get_tunnel_pid context_name else ret None) ;;
  let port := get_tunnel_port context_name in
  meta <- get_network_metadata context_name ;;
  ret (mk_ctx_status context_name running pid port meta).

Fixpoint context_statuses (ctxs : list string) : M (list ctx_status) :=
  match ctxs with
  | [] => ret []
  | c :: r => s <- context_status c ;; l <- context_statuses r ;; ret (s :: l)
  end.

(** [key=lambda x: x['name']]: strings hold UTF-8 bytes, whose
    lexicographic order is the code-point order Python compares. *)
Definition name_le (a b : ctx_status) : Prop :=
  String.leb (name a) (name b) = true.

#[global] Instance name_le_dec : RelDecision name_le.
Proof. intros a b. unfold name_le. apply _. Defined.

(** [list_all_contexts] (multi_status.py, lines 82-127).  [list.sort]
    is a stable sort by name and the names are distinct file names, so
    any sort by name gives its order. *)
Definition list_all_contexts : M (list ctx_status) :=
  fun w => (l <- context_statuses (pid_contexts w) ;;
            ret (merge_sort name_le l)) w.

(** [set_current_context] (multi_connect.py, lines 316-334).  With
    [check=True] a non-zero exit status raises [CalledProcessError],
    which the function turns into [False]; a missing [kubectl]
    ([FileNotFoundError]) is not caught. *)
Definition use_context_cmd (ctx : string) : command :=
  mk_command ["kubectl"; "config"; "use-context"; ctx] None.

Definition set_current_context (ctx : string) : M bool :=
  r <- run (use_context_cmd ctx) ;;
  let '(rc, _, _) := r in ret (rc =? 0).

(** The loop [for cluster in selected: results.append(connect_cluster(...))]
    of [main]. *)
Fixpoint connect_all (cls : list cluster) : M (list conn_result) :=
  match cls with
  | [] => ret []
  | c :: r => res <- connect_cluster c ;; l <- connect_all r ;; ret (res :: l)
  end.

(** The [sshuttle] command [main] reminds of for a connected cluster. *)
Definition reminder_cmd (c : cluster) : option string :=
  if bool_decide (network_type c = Some "sshuttle"%string)
  then Some ("sshuttle -v -r helio@100.64.5.10 " ++ opt_py_str (network_range c))%string
  else None.

(** [if sshuttle_cmd not in network_reminders: network_reminders.append(...)] *)
Fixpoint add_reminders (acc : list string) (cls : list cluster) : list string :=
  match cls with
  | [] => acc
  | c :: r =>
      match reminder_cmd c with
      | Some s => if existsb (String.eqb s) acc then add_reminders acc r
                  else add_reminders (acc ++ [s]) r
      | None => add_reminders acc r
      end
  end.

(** How the connection phase of [main] ends: [sys.exit(1)] when no
    cluster connected, otherwise the first successful context made
    active (with [set_current_context]'s answer) and the network
    reminders printed. *)
Inductive main_outcome :=
| NoneConnected (results : list conn_result)
| Connected (results : list conn_result) (first_context : string)
    (context_set : bool) (network_reminders : list string).

(** The connection phase of [main] (multi_connect.py, lines 424-484);
    [r['cluster']] is the cluster [r] was computed for, the [results]
    being in the order of [selected]. *)
Definition main_connect (selected : list cluster) : M main_outcome :=
  results <- connect_all selected ;;
  let successful :=
    filter (fun p => success (snd p) = true) (combine selected results) in
  match successful with
  | [] => ret (NoneConnected results)
  | (_, r) :: _ =>
      ok <- set_current_context (context_name r) ;;
      ret (Connected results (context_name r) ok
             (add_reminders [] (map fst successful)))
  end.

End Tunnels.

(* ================================================================= *)
(** ** Concrete environments used by the examples *)

Definition ctx_acme : string := "acme-prod1".
Definition cidr_90 : string := "192.168.90.0/24".

Definition empty_world : world := mk_world ∅ ∅ [].

(** Every signal fails with [ProcessLookupError]: no such process. *)
Definition no_such_process : Z -> Z -> option exn :=
  fun _ _ => Some ProcessLookupError.

(** Every signal is delivered: the process is alive. *)
Definition all_alive : Z -> Z -> option exn := fun _ _ => None.

(** Every command exits with status 1 and no output; [ssh] succeeds. *)
Definition ssh_ok_nothing_found : command -> proc_result :=
  fun c => match argv c with
           | "ssh"%string :: _ => Completed 0 "" ""
           | _ => Completed 1 "" ""
           end.

Definition acme_cluster : cluster :=
  mk_cluster "acme" "prod1" "10.0.5.20" None None false.

Definition sshuttle_vpn_doc : ydict :=
  [("network_type", YStr "sshuttle"); ("network_range", YStr cidr_90);
   ("needs_vpn", YBool true)].

(** A context with a recorded pid and a [.network] document. *)
Definition acme_world : world :=
  mk_world {[ctx_acme := "4242"%string]} {[ctx_acme := NetDoc sshuttle_vpn_doc]} [].

(** A context whose [.pid] file does not hold an integer. *)
Definition garbled_world : world :=
  mk_world {[ctx_acme := "not-a-pid"%string]} ∅ [].

(** A context with a [.network] document and no [.pid] file. *)
Definition sshuttle_world : world :=
  mk_world ∅ {[ctx_acme := NetDoc [("network_type", YStr "sshuttle");
                                   ("network_range", YStr cidr_90);
                                   ("needs_vpn", YBool false)]]} [].

(** [str.find]-style containment. *)
Definition contains (haystack needle : string) : bool :=
  match String.index 0 needle haystack with Some _ => true | None => false end.
(** [kill_tunnel] returns normally when [os.kill(pid, 15)] succeeds or
    raises one of the exceptions it catches. *)
Definition kill_caught (os_kill : Z -> Z -> option exn) (ctx : string)
    (w : world) : Prop :=
  forall text p, pid_files w !! ctx = Some text -> parse_int text = Some p ->
  match os_kill p 15 with None => True | Some e => stale_pid_error e = true end.

Definition pid_op (op : fs_op) : bool :=
  match op with PidTruncate _ | PidFlush _ _ => true | _ => false end.

(** A metadata document records a requirement: a truthy
    [network_type] or a truthy [needs_vpn]. *)
Definition meta_requirement (d : ydict) : bool :=
  yval_truthy (dict_get d "network_type") || yval_truthy (dict_get d "needs_vpn").

(** Neither [pgrep] probe finds a process (each exits without output,
    times out, or [pgrep] is missing). *)
Definition no_sshuttle_process (subprocess_run : command -> proc_result)
    (network_range : string) : Prop :=
  forall c, c = sshuttle_range_cmd network_range \/ c = sshuttle_any_cmd ->
  match subprocess_run c with
  | Completed rc out _ => found rc out = false
  | Raised e => e = TimeoutExpired \/ e = FileNotFoundError
  end.

(** The state after the first [k] file steps of a write: what a crash
    at that point leaves visible. *)
Definition after_steps (ops : list fs_op) (k : nat) (w : world) : world :=
  fold_left apply_op (firstn k ops) w.

(* ================================================================= *)
(** ** The display and selection helpers *)

(** The grouping loop of [show_network_warnings] (multi_connect.py,
    lines 150-161): a cluster needing a VPN goes to [vpn_required],
    else an sshuttle one to [sshuttle_required], else to [direct]. *)
Fixpoint group_clusters_aux (cls : list cluster)
    (vpn sshuttle direct : list cluster)
  : list cluster * list cluster * list cluster :=
  match cls with
  | [] => (vpn, sshuttle, direct)
  | c :: r =>
      if needs_vpn c then group_clusters_aux r (vpn ++ [c]) sshuttle direct
      else if bool_decide (network_type c = Some "sshuttle"%string)
      then group_clusters_aux r vpn (sshuttle ++ [c]) direct
      else group_clusters_aux r vpn sshuttle (direct ++ [c])
  end.

Definition group_clusters (cls : list cluster)
  : list cluster * list cluster * list cluster :=
  group_clusters_aux cls [] [] [].

Definition string_le (a b : string) : Prop := String.leb a b = true.

#[global] Instance string_le_dec : RelDecision string_le.
Proof. intros a b. unfold string_le. apply _. Defined.

(** [c['network_range']] when it is truthy. *)
Definition truthy_range (c : cluster) : option string :=
  match network_range c with
  | Some r => if String.eqb r "" then None else Some r
  | None => None
  end.

(** [sorted(set(c['network_range'] for c in sshuttle_required if
    c['network_range']))] (multi_connect.py, lines 189-192). *)
Definition sshuttle_ranges (sshuttle_required : list cluster) : list string :=
  merge_sort string_le (remove_dups (omap truthy_range sshuttle_required)).

(** Python [==] between YAML scalars, where [True == 1] and
    [False == 0]. *)
Definition py_eqb (v1 v2 : yval) : bool :=
  match v1, v2 with
  | YBool a, YInt z | YInt z, YBool a => z =? (if a then 1 else 0)
  | _, _ => yval_eqb v1 v2
  end.

(** The metadata [show_status] collects into [network_requirements]
    (multi_status.py, lines 157-176): that of a running context whose
    metadata is a non-empty dict with [network_type == 'sshuttle']. *)
Definition requirement_of (c : ctx_status) : option ydict :=
  if tunnel_running c then
    match network_metadata c with
    | None | Some [] => None
    | Some meta =>
        if yval_eqb (dict_get meta "network_type") (YStr "sshuttle")
        then Some meta else None
    end
  else None.

(** The "Active network requirements" loop of [show_status]
    (multi_status.py, lines 189-196): the commands printed, each a
    truthy [sshuttle_command] not yet in [shown_commands]. *)
Fixpoint shown_requirements (reqs : list ydict) (shown : list yval)
  : list yval :=
  match reqs with
  | [] => []
  | meta :: r =>
      let cmd := dict_get meta "sshuttle_command" in
      if yval_truthy cmd && negb (existsb (py_eqb cmd) shown)
      then cmd :: shown_requirements r (cmd :: shown)
      else shown_requirements r shown
  end.

Definition status_requirement_commands (contexts : list ctx_status)
  : list yval :=
  shown_requirements (omap requirement_of contexts) [].

(* ================================================================= *)
(** ** [inventory.extract_hosts_from_inventory] *)

(** A YAML document as [yaml.load] builds it.  Mapping keys are
    strings, as they are in the inventories, and a mapping is the dict
    it loads to, so its keys are distinct. *)
Local Set Warnings "-register-all".
Inductive yaml :=
| YamlNull
| YamlBool (b : bool)
| YamlInt (z : Z)
| YamlStr (s : string)
| YamlSeq (l : list yaml)
| YamlMap (m : list (string * yaml)).

Definition yaml_truthy (v : yaml) : bool :=
  match v with
  | YamlNull => false
  | YamlBool b => b
  | YamlInt z => negb (z =? 0)
  | YamlStr s => negb (String.eqb s "")
  | YamlSeq [] | YamlMap [] => false
  | YamlSeq _ | YamlMap _ => true
  end.

Definition ylookup {V} (m : list (string * V)) (k : string) : option V :=
  match find (fun kv => String.eqb (fst kv) k) m with
  | Some (_, v) => Some v
  | None => None
  end.

(** The exceptions [extract_hosts_from_inventory] can raise. *)
Inductive py_exn := TypeError | AttributeError.

Inductive py_result (A : Type) := PyOk (a : A) | PyRaise (e : py_exn).
Arguments PyOk {A} a.
Arguments PyRaise {A} e.

(** [key in v] for a string [key]: key membership for a dict, element
    membership for a list, substring for a string; [TypeError] (as
    [None]) for [None], a bool or an int. *)
Definition py_contains (key : string) (v : yaml) : option bool :=
  match v with
  | YamlMap m => Some (if ylookup m key then true else false)
  | YamlSeq l =>
      Some (existsb (fun x => match x with
                              | YamlStr s => String.eqb s key
                              | _ => false
                              end) l)
  | YamlStr s => Some (contains s key)
  | _ => None
  end.

(** The value stored for a host. *)
Record host_entry := mk_host_entry { group : string; config : yaml }.

(** [d[k] = v]: an existing key keeps its place. *)
Fixpoint dict_set {V} (d : list (string * V)) (k : string) (v : V)
  : list (string * V) :=
  match d with
  | [] => [(k, v)]
  | (k', v') :: r => if String.eqb k' k then (k, v) :: r
                     else (k', v') :: dict_set r k v
  end.

(** [for host_name, host_config in hosts_data.items(): hosts[host_name]
    = {"group": group_name, "config": host_config or {}}] *)
Definition add_hosts (g : string) (hosts_data : list (string * yaml))
    (acc : list (string * host_entry)) : list (string * host_entry) :=
  fold_left (fun acc hc =>
               dict_set acc (fst hc)
                 (mk_host_entry g (if yaml_truthy (snd hc) then snd hc
                                   else YamlMap [])))
            hosts_data acc.

(** The hosts dict of a group: [group_data["hosts"]] when [group_data]
    is a dict holding a truthy dict there. *)
Definition group_hosts (group_data : yaml) : option (list (string * yaml)) :=
  match group_data with
  | YamlMap m =>
      match ylookup m "hosts" with
      | Some (YamlMap hs) => if yaml_truthy (YamlMap hs) then Some hs else None
      | _ => None
      end
  | _ => None
  end.

(** One iteration of [for group_name, group_data in
    all_data["children"].items()]. *)
Definition add_group (acc : list (string * host_entry))
    (gd : string * yaml) : list (string * host_entry) :=
  match group_hosts (snd gd) with
  | Some hs => add_hosts (fst gd) hs acc
  | None => acc
  end.

(** [extract_hosts_from_inventory] (inventory.py, lines 57-86).
    [all_data["children"]] raises [TypeError] for a list or a string,
    and [.items()] raises [AttributeError] on anything but a dict. *)
Definition extract_hosts_from_inventory (inv_data : yaml)
  : py_result (list (string * host_entry)) :=
  match inv_data with
  | YamlMap inv =>
      match ylookup inv "all" with
      | None => PyOk []
      | Some all_data =>
          match py_contains "children" all_data with
          | None => PyRaise TypeError
          | Some false => PyOk []
          | Some true =>
              match all_data with
              | YamlMap a =>
                  match ylookup a "children" with
                  | Some (YamlMap groups) => PyOk (fold_left add_group groups [])
                  | _ => PyRaise AttributeError
                  end
              | _ => PyRaise TypeError
              end
          end
      end
  | _ => PyOk []
  end.

(** ** Further environments *)

(** The value [parse_digits] accumulates over a digit string, from [a]. *)
Definition val_digits (ds : list ascii) (a : Z) : Z :=
  fold_left (fun acc c => acc * 10 + digit_value c) ds a.

(** The pid [get_tunnel_pid] reports for a record text when [os.kill(pid, 0)] succeeds. *)
Definition live_pid (os_kill : Z -> Z -> option exn) (text : string) : option Z :=
  match parse_int text with
  | Some p => match os_kill p 0 with None => Some p | Some _ => None end
  | None => None
  end.

(** Whether a record text names a live process, as [is_tunnel_running] decides it. *)
Definition live_record (os_kill : Z -> Z -> option exn) (text : string) : bool :=
  match live_pid os_kill text with Some _ => true | None => false end.

(** Every signal-0 probe of a recorded pid that fails, fails with an error the
    tunnel module catches (a stale record). *)
Definition stale_errors_only (os_kill : Z -> Z -> option exn) (w : world) : Prop :=
  forall ctx text p e, pid_files w !! ctx = Some text -> parse_int text = Some p ->
  os_kill p 0 = Some e -> stale_pid_error e = true.

(** A context entry of [list_all_contexts] as it reads back from the world. *)
Definition status_ok os_kill yi (w : world) (s : ctx_status) : Prop :=
  exists text, pid_files w !! name s = Some text
  /\ tunnel_running s = live_record os_kill text
  /\ status_tunnel_pid s = live_pid os_kill text
  /\ status_local_port s = get_tunnel_port (name s)
  /\ fst (get_network_metadata yi (name s) w) = Ok (network_metadata s).

(** The world after one context's status is computed: a stale record is removed. *)
Definition after_status os_kill (ctx : string) (w : world) : world :=
  match pid_files w !! ctx with
  | Some text => if live_record os_kill text then w
                 else set_pid_files w (delete ctx (pid_files w))
  | None => w
  end.

(** A pid record as it survives the status scan. *)
Definition live_filter os_kill (r : option string) : option string :=
  match r with
  | Some text => if live_record os_kill text then Some text else None
  | None => None
  end.

(** The world after the status scan of a list of contexts. *)
Definition after_statuses os_kill (l : list string) (w : world) : world :=
  fold_left (fun w c => after_status os_kill c w) l w.

(** Removing the records of a list of contexts. *)
Definition delete_all (l : list string) (m : gmap string string) : gmap string string :=
  fold_left (fun m c => delete c m) l m.

(** A cluster that [show_network_warnings] files under sshuttle. *)
Definition is_sshuttle (c : cluster) : Prop := network_type c = Some "sshuttle"%string.

(** The entry [extract_hosts_from_inventory] builds for a host of group [g]. *)
Definition host_entry_of (g : string) (cfg : yaml) : host_entry :=
  mk_host_entry g (if yaml_truthy cfg then cfg else YamlMap []).

(** The entry a group contributes for host [h], if it lists it. *)
Definition group_entry (gd : string * yaml) (h : string) : option host_entry :=
  match group_hosts (snd gd) with
  | Some hs => match ylookup hs h with
               | Some cfg => Some (host_entry_of (fst gd) cfg)
               | None => None
               end
  | None => None
  end.

(** Process table: pid 4242 alive, every other pid gone. *)
Definition alive_4242 : Z -> Z -> option exn :=
  fun p _ => if p =? 4242 then None else Some ProcessLookupError.

(** Process table as [os.kill] sees it: a pid outside the C [pid_t] range raises
    [OverflowError]; 4242 alive, every other pid gone. *)
Definition pid_t_kill : Z -> Z -> option exn :=
  fun p _ => if (p <? -2147483648) || (2147483647 <? p) then Some OverflowError
             else if p =? 4242 then None else Some ProcessLookupError.

(** Three pid records, one of them garbled, and sshuttle metadata for acme. *)
Definition fleet_world : world :=
  mk_world {[ "acme-prod1" := "4242"; "beta-db1" := "777"; "zeta-web" := "not-a-pid" ]}%string
           {[ ctx_acme := NetDoc sshuttle_vpn_doc ]} [].

(** Three pid records, one of them out of the [pid_t] range. *)
Definition overflow_world : world :=
  mk_world {[ "acme-prod1" := "777"; "zeta-web" := "99999999999"; "beta-db1" := "4242" ]}%string
           ∅ [].

Definition beta_cluster : cluster :=
  mk_cluster "beta" "db1" "10.0.7.3" (Some "sshuttle"%string) (Some cidr_90) false.

Definition gamma_cluster : cluster :=
  mk_cluster "gamma" "api" "10.0.7.9" (Some "sshuttle"%string) (Some cidr_90) false.

(** Three clusters: acme needs a VPN; beta and gamma use sshuttle on one range. *)
Definition demo_clusters : list cluster := [acme_cluster; beta_cluster; gamma_cluster].

(** Commands: ssh to prod1 is refused, every other ssh succeeds, nothing else is found. *)
Definition ssh_fails_for_prod1 : command -> proc_result :=
  fun c => match argv c with
           | "ssh"%string :: _ =>
               if existsb (String.eqb "prod1") (argv c)
               then Completed 255 "" "Connection refused"
               else Completed 0 "" ""
           | _ => Completed 1 "" ""
           end.

(** Commands: ssh succeeds and pgrep finds the tunnel as pid 4242. *)
Definition ssh_ok_pid_found : command -> proc_result :=
  fun c => match argv c with
           | "ssh"%string :: _ => Completed 0 "" ""
           | "pgrep"%string :: _ => Completed 0 ("4242" ++ nl) ""
           | _ => Completed 1 "" ""
           end.

(** The connect loop of [main] over [demo_clusters]. *)
Definition demo_connect_all :=
  Eval vm_compute in connect_all all_alive ssh_fails_for_prod1 true 16443 10000 6443
                       demo_clusters empty_world.

(** The connect phase of [main] over [demo_clusters]. *)
Definition demo_main :=
  Eval vm_compute in main_connect all_alive ssh_fails_for_prod1 true 16443 10000 6443
                       demo_clusters empty_world.

(** An inventory with host h1 in two groups and a host with no settings. *)
Definition demo_inventory : list (string * yaml) :=
  [("all", YamlMap [("children", YamlMap
     [("web", YamlMap [("hosts", YamlMap
         [("h1", YamlNull); ("h2", YamlMap [("ansible_host", YamlStr "10.0.0.2")])])]);
      ("db", YamlMap [("hosts", YamlMap
         [("h1", YamlMap [("ansible_host", YamlStr "10.0.0.1")])])])])])].


Example md5_abc :
  hexdigest (MD5.digest (encode "abc")) =
  [9;0;0;1;5;0;9;8;3;12;13;2;4;15;11;0;13;6;9;6;3;15;7;13;2;8;14;1;7;15;7;2].
Proof. vm_compute. reflexivity. Qed.

Example port_acme : get_unique_port "acme-prod1" 16443 10000 = 19107.
Proof. vm_compute. reflexivity. Qed.

Example parse_int_examples :
  parse_int (" 4242" ++ nl)%string = Some 4242 /\ parse_int "abc" = None
  /\ parse_int "1_000" = Some 1000 /\ parse_int "" = None
  /\ parse_int "-7" = Some (-7) /\ parse_int "1__0" = None.
Proof. vm_compute. repeat split. Qed.

Example z_to_dec_examples :
  z_to_dec 4242 = "4242"%string /\ z_to_dec 0 = "0"%string
  /\ z_to_dec (-10) = "-10"%string /\ z_to_dec 19107 = "19107"%string.
Proof. vm_compute. repeat split. Qed.

Example connect_fresh_acme :
  fst (connect_cluster all_alive ssh_ok_nothing_found true 16443 10000 6443
         acme_cluster empty_world)
  = Ok (mk_conn_result true "acme-prod1" (Some 19107) (Some "10.0.5.20")
          None None).
Proof. vm_compute. reflexivity. Qed.

(* ================================================================= *)
(** ** Port Allocator *)

Lemma get_unique_port_bounds (ctx : string) (start size : Z) :
  0 < size -> start <= get_unique_port ctx start size < start + size.
Proof.
  intros Hsize. unfold get_unique_port.
  pose proof (Z.mod_pos_bound
                (int_base16 (firstn 4 (hexdigest (MD5.digest (encode ctx)))))
                size Hsize).
  lia.
Qed.

(** C1: [get_unique_port] reads nothing but its arguments, so any
    number of calls on one context return one value, and with the
    default range that value lies in [[16443, 26443)]. *)
Theorem get_unique_port_deterministic_in_range (ctx : string) (n : nat) :
  map (fun _ => get_unique_port ctx 16443 10000) (seq 0 n)
  = repeat (get_unique_port ctx 16443 10000) n
  /\ 16443 <= get_unique_port ctx 16443 10000 < 26443.
Proof.
  split.
  - generalize 0%nat. induction n as [|n IH]; intros k; simpl.
    + reflexivity.
    + f_equal. apply IH.
  - pose proof (get_unique_port_bounds ctx 16443 10000 ltac:(lia)). lia.
Qed.

(* ================================================================= *)
(** ** Process Liveness Checker *)

Ltac run_monad :=
  repeat (unfold bind, ret, raise, try_except, try_finally, kill, py_int,
            pid_file_exists, read_pid_file, unlink_pid_file in *;
          cbv beta iota zeta delta [negb andb orb] in * ).

Lemma is_tunnel_running_stale (os_kill : Z -> Z -> option exn)
    (ctx text : string) (w : world) :
  pid_files w !! ctx = Some text ->
  (parse_int text = None \/
   exists p e, parse_int text = Some p /\ os_kill p 0 = Some e
               /\ stale_pid_error e = true) ->
  is_tunnel_running os_kill ctx w
  = (Ok false, set_pid_files w (delete ctx (pid_files w))).
Proof.
  intros Hrec Hstale. unfold is_tunnel_running. run_monad.
  rewrite Hrec. run_monad. rewrite Hrec. run_monad.
  destruct Hstale as [Hnone | (p & e & Hp & Hk & He)].
  - rewrite Hnone. reflexivity.
  - rewrite Hp, Hk. run_monad. rewrite He. reflexivity.
Qed.

Lemma is_tunnel_running_absent (os_kill : Z -> Z -> option exn)
    (ctx : string) (w : world) :
  pid_files w !! ctx = None -> is_tunnel_running os_kill ctx w = (Ok false, w).
Proof.
  intros Habs. unfold is_tunnel_running. run_monad. rewrite Habs. reflexivity.
Qed.

(** C4: a record whose pid names no process ([os.kill(pid, 0)] raises
    [ProcessLookupError]) makes [is_tunnel_running] return [False] and
    delete the record; a second call returns [False] and leaves the
    same state. *)
Theorem is_tunnel_running_self_heals (os_kill : Z -> Z -> option exn)
    (ctx text : string) (pid : Z) (w : world)
    (Hrec : pid_files w !! ctx = Some text)
    (Hpid : parse_int text = Some pid)
    (Hdead : os_kill pid 0 = Some ProcessLookupError) :
  let '(r1, w1) := is_tunnel_running os_kill ctx w in
  r1 = Ok false
  /\ pid_files w1 !! ctx = None
  /\ fst (read_pid_file ctx w1) = Err FileNotFoundError
  /\ is_tunnel_running os_kill ctx w1 = (Ok false, w1).
Proof.
  rewrite (is_tunnel_running_stale os_kill ctx text w Hrec).
  2:{ right. exists pid, ProcessLookupError. auto. }
  assert (Hdel : pid_files (set_pid_files w (delete ctx (pid_files w))) !! ctx = None)
    by (simpl; apply lookup_delete_eq).
  split; [reflexivity|]. split; [exact Hdel|]. split.
  - unfold read_pid_file. rewrite Hdel. reflexivity.
  - apply is_tunnel_running_absent. exact Hdel.
Qed.

Lemma get_tunnel_pid_unparseable (os_kill : Z -> Z -> option exn)
    (ctx text : string) (w : world) :
  pid_files w !! ctx = Some text -> parse_int text = None ->
  get_tunnel_pid os_kill ctx w = (Ok None, w).
Proof.
  intros Hrec Hbad. unfold get_tunnel_pid. run_monad.
  rewrite Hrec. run_monad. rewrite Hrec. run_monad. rewrite Hbad. reflexivity.
Qed.

(** C10: a pid file whose text is not a decimal integer is handled as a
    dead process: [is_tunnel_running] deletes it and returns [False],
    [get_tunnel_pid] returns [None]; both return normally. *)
Theorem unparseable_pid_record_is_stale (os_kill : Z -> Z -> option exn)
    (ctx text : string) (w : world)
    (Hrec : pid_files w !! ctx = Some text)
    (Hbad : parse_int text = None) :
  is_tunnel_running os_kill ctx w
  = (Ok false, set_pid_files w (delete ctx (pid_files w)))
  /\ get_tunnel_pid os_kill ctx w = (Ok None, w).
Proof.
  split.
  - apply (is_tunnel_running_stale os_kill ctx text w Hrec). left. exact Hbad.
  - exact (get_tunnel_pid_unparseable os_kill ctx text w Hrec Hbad).
Qed.

(* ================================================================= *)
(** ** Status Reporter *)

(** C9: the current-context query runs with [timeout=5]; when it exits
    non-zero, times out or its binary is missing, [get_current_context]
    returns [None]. *)
Theorem get_current_context_absent_on_failure
    (subprocess_run : command -> proc_result) (w : world)
    (Hfail : (exists rc out err,
                subprocess_run current_context_cmd = Completed rc out err
                /\ rc <> 0)
             \/ subprocess_run current_context_cmd = Raised TimeoutExpired
             \/ subprocess_run current_context_cmd = Raised FileNotFoundError) :
  timeout current_context_cmd = Some 5
  /\ get_current_context subprocess_run w
     = (Ok None, log_command w current_context_cmd).
Proof.
  split; [reflexivity|].
  unfold get_current_context, run. run_monad.
  destruct Hfail as [(rc & out & err & Hrun & Hrc) | [Hrun | Hrun]];
    rewrite Hrun; run_monad; try reflexivity.
  apply Z.eqb_neq in Hrc. rewrite Hrc. reflexivity.
Qed.

(* ================================================================= *)
(** ** Tunnel Lifecycle Manager: [kill_tunnel] *)

Lemma set_pid_files_same (w : world) :
  set_pid_files w (pid_files w) = w.
Proof. destruct w. reflexivity. Qed.

Lemma kill_tunnel_effect (os_kill : Z -> Z -> option exn) (ctx : string)
    (w : world) :
  kill_caught os_kill ctx w ->
  kill_tunnel os_kill ctx w
  = (Ok tt, set_pid_files w (delete ctx (pid_files w))).
Proof.
  intros Hc. unfold kill_tunnel. run_monad.
  destruct (pid_files w !! ctx) as [text|] eqn:Hrec.
  - run_monad. rewrite Hrec. run_monad.
    destruct (parse_int text) as [p|] eqn:Hp; run_monad; [|reflexivity].
    specialize (Hc text p Hrec Hp).
    destruct (os_kill p 15) as [e|]; run_monad; [|reflexivity].
    rewrite Hc. reflexivity.
  - run_monad. rewrite delete_id by exact Hrec.
    rewrite set_pid_files_same. reflexivity.
Qed.

(** C2, as claimed, fails: with a dead pid and a [.network] file for
    the context, [kill_tunnel] returns normally and deletes the
    [.pid] file but leaves the [.network] file in place. *)
Lemma kill_tunnel_keeps_network_metadata :
  let w := mk_world {[ctx_acme := "4242"%string]}
                    {[ctx_acme := NetDoc sshuttle_vpn_doc]} [] in
  let '(r, w') := kill_tunnel no_such_process ctx_acme w in
  r = Ok tt /\ pid_files w' !! ctx_acme = None
  /\ network_files w' !! ctx_acme = Some (NetDoc sshuttle_vpn_doc).
Proof. vm_compute. repeat split. Qed.

(** C2 (amended): when the record is absent or unparseable or its
    process is dead (any exception [kill_tunnel] catches),
    [kill_tunnel] returns normally and deletes the [.pid] file; it
    leaves the [.network] file as it was, which only
    [remove_network_metadata] deletes. *)
Theorem kill_tunnel_removes_pid_record (os_kill : Z -> Z -> option exn)
    (ctx : string) (w : world)
    (Hcaught : kill_caught os_kill ctx w) :
  let '(r, w') := kill_tunnel os_kill ctx w in
  r = Ok tt
  /\ pid_files w' !! ctx = None
  /\ network_files w' = network_files w
  /\ network_files (snd (remove_network_metadata ctx w')) !! ctx = None.
Proof.
  rewrite (kill_tunnel_effect os_kill ctx w Hcaught). simpl.
  split; [reflexivity|]. split; [apply lookup_delete_eq|].
  split; [reflexivity|]. apply lookup_delete_eq.
Qed.

(* ================================================================= *)
(** ** Tunnel Lifecycle Manager: [connect_cluster] *)

Lemma run_ops_pid_files (ops : list fs_op) (w : world) :
  forallb (fun op => negb (pid_op op)) ops = true ->
  pid_files (fold_left apply_op ops w) = pid_files w.
Proof.
  revert w. induction ops as [|op ops IH]; intros w H; [reflexivity|].
  simpl in H. apply andb_prop in H as [Hop Hops].
  simpl. rewrite IH by exact Hops.
  destruct op; simpl in Hop; try discriminate; reflexivity.
Qed.

Lemma run_ops_proc_log (ops : list fs_op) (w : world) :
  proc_log (fold_left apply_op ops w) = proc_log w.
Proof.
  revert w. induction ops as [|op ops IH]; intros w; [reflexivity|].
  simpl. rewrite IH. destruct op; reflexivity.
Qed.

Lemma save_network_metadata_pid_files (yaml_importable : bool)
    (ctx : string) (nt nr cmd : option string) (vpn : bool)
    (ip : option string) (w : world) :
  fst (save_network_metadata yaml_importable ctx nt nr cmd vpn ip w) = Ok tt
  /\ pid_files (snd (save_network_metadata yaml_importable ctx nt nr cmd vpn ip w))
     = pid_files w.
Proof.
  split; [reflexivity|]. unfold save_network_metadata, run_ops. simpl.
  apply run_ops_pid_files. unfold save_network_metadata_ops.
  destruct (negb (str_truthy nt) && negb vpn); [reflexivity|].
  destruct yaml_importable; reflexivity.
Qed.

Lemma save_cluster_network_pid_files (yaml_importable : bool) (cl : cluster)
    (ctx ip : string) (w : world) :
  exists w', save_cluster_network yaml_importable cl ctx ip w = (Ok tt, w')
             /\ pid_files w' = pid_files w /\ proc_log w' = proc_log w.
Proof.
  unfold save_cluster_network.
  destruct (str_truthy (network_type cl) || needs_vpn cl).
  - eexists. split; [|split].
    + unfold save_network_metadata, run_ops. reflexivity.
    + apply save_network_metadata_pid_files.
    + unfold save_network_metadata, run_ops. apply run_ops_proc_log.
  - exists w. split; [|split]; reflexivity.
Qed.

(** [connect_cluster] once the kubeconfig is fetched: its result
    depends on [setup_tunnel] only. *)
Lemma connect_cluster_unfold os_kill subprocess_run yaml_importable
    (range_start range_size target_port : Z) (cl : cluster) (w : world) :
  let ctx := (company cl ++ "-" ++ host_alias cl)%string in
  let port := get_unique_port ctx range_start range_size in
  let ip := cluster_internal_ip cl in
  connect_cluster os_kill subprocess_run yaml_importable range_start range_size
    target_port cl w
  = match setup_tunnel os_kill subprocess_run target_port cl ctx port ip w with
    | (Ok pid, w1) =>
        match save_cluster_network yaml_importable cl ctx ip w1 with
        | (Ok _, w2) => (Ok (mk_conn_result true ctx (Some port) (Some ip) pid None), w2)
        | (Err e, w2) => (Ok (mk_conn_result false ctx (Some port) (Some ip) pid (Some e)), w2)
        end
    | (Err e, w1) => (Ok (mk_conn_result false ctx (Some port) (Some ip) None (Some e)), w1)
    end.
Proof.
  intros ctx port ip. unfold connect_cluster, catch_into, try_except,
    fetch_and_merge_kubeconfig, bind, ret. cbv beta iota zeta.
  fold ctx port ip.
  destruct (setup_tunnel os_kill subprocess_run target_port cl ctx port ip w)
    as [[pid|e] w1]; [|reflexivity].
  destruct (save_cluster_network yaml_importable cl ctx ip w1) as [[u|e] w2];
    reflexivity.
Qed.

Lemma setup_tunnel_fast_path os_kill subprocess_run (target_port : Z)
    (cl : cluster) (ctx ip : string) (port : Z) (text : string) (pid : Z)
    (w : world) :
  pid_files w !! ctx = Some text -> parse_int text = Some pid ->
  os_kill pid 0 = None ->
  setup_tunnel os_kill subprocess_run target_port cl ctx port ip w
  = (Ok (Some pid), w).
Proof.
  intros Hrec Hp Hlive. unfold setup_tunnel, is_tunnel_running. run_monad.
  rewrite Hrec. run_monad. rewrite Hrec. run_monad. rewrite Hp. run_monad.
  rewrite Hlive. run_monad. rewrite Hrec. run_monad. rewrite Hrec. run_monad.
  rewrite Hp. reflexivity.
Qed.

Lemma is_tunnel_running_eq os_kill ctx w :
  is_tunnel_running os_kill ctx w =
  match pid_files w !! ctx with
  | None => (Ok false, w)
  | Some text =>
      match parse_int text with
      | None => (Ok false, set_pid_files w (delete ctx (pid_files w)))
      | Some p =>
          match os_kill p 0 with
          | None => (Ok true, w)
          | Some e => if stale_pid_error e
                      then (Ok false, set_pid_files w (delete ctx (pid_files w)))
                      else (Err e, w)
          end
      end
  end.
Proof.
  unfold is_tunnel_running. run_monad.
  destruct (pid_files w !! ctx) as [text|] eqn:Hrec; run_monad; [|reflexivity].
  rewrite Hrec. run_monad.
  destruct (parse_int text) as [p|]; run_monad; [|reflexivity].
  destruct (os_kill p 0) as [e|]; run_monad; [|reflexivity].
  destruct (stale_pid_error e); reflexivity.
Qed.

(** [is_tunnel_running] answers [False] only with no [.pid] file left
    for the context, having touched nothing else. *)
Lemma is_tunnel_running_false os_kill (ctx : string) (w w1 : world) :
  is_tunnel_running os_kill ctx w = (Ok false, w1) ->
  pid_files w1 !! ctx = None /\ network_files w1 = network_files w
  /\ proc_log w1 = proc_log w.
Proof.
  rewrite is_tunnel_running_eq.
  destruct (pid_files w !! ctx) as [text|] eqn:Hrec.
  - assert (Hdel : (Ok false, set_pid_files w (delete ctx (pid_files w)))
                   = (Ok false, w1) ->
                   pid_files w1 !! ctx = None /\ network_files w1 = network_files w
                   /\ proc_log w1 = proc_log w).
    { intros H. injection H as Hw. subst w1. simpl.
      split; [apply lookup_delete_eq|split; reflexivity]. }
    destruct (parse_int text) as [p|]; [|exact Hdel].
    destruct (os_kill p 0) as [e|]; [|discriminate].
    destruct (stale_pid_error e); [exact Hdel|discriminate].
  - intros H. injection H as Hw. subst w1. auto.
Qed.

(** When the tunnel is not running, [setup_tunnel] spawns from the world
    [is_tunnel_running] leaves, which has no [.pid] file for the context. *)
Lemma setup_tunnel_not_running os_kill subprocess_run (target_port : Z)
    (cl : cluster) (ctx ip : string) (port : Z) (w w1 : world) :
  is_tunnel_running os_kill ctx w = (Ok false, w1) ->
  setup_tunnel os_kill subprocess_run target_port cl ctx port ip w
  = setup_tunnel os_kill subprocess_run target_port cl ctx port ip w1.
Proof.
  intros Hr. destruct (is_tunnel_running_false os_kill ctx w w1 Hr) as (Habs & _ & _).
  assert (Hr1 : is_tunnel_running os_kill ctx w1 = (Ok false, w1))
    by (rewrite is_tunnel_running_eq, Habs; reflexivity).
  unfold setup_tunnel. unfold bind at 1. rewrite Hr. cbv beta iota.
  symmetry. unfold bind at 1. rewrite Hr1. reflexivity.
Qed.

Lemma setup_tunnel_pid_not_found os_kill subprocess_run (target_port : Z)
    (cl : cluster) (ctx ip : string) (port : Z) (w : world)
    (out err : string) (rc2 : Z) (out2 err2 : string) :
  pid_files w !! ctx = None ->
  subprocess_run (ssh_tunnel_cmd (host_alias cl) ip port target_port)
    = Completed 0 out err ->
  subprocess_run (pgrep_tunnel_cmd ip port target_port)
    = Completed rc2 out2 err2 ->
  found rc2 out2 = false ->
  setup_tunnel os_kill subprocess_run target_port cl ctx port ip w
  = (Ok None, log_command (log_command w
                 (ssh_tunnel_cmd (host_alias cl) ip port target_port))
                 (pgrep_tunnel_cmd ip port target_port)).
Proof.
  intros Habs Hssh Hpg Hnf. unfold setup_tunnel, is_tunnel_running. run_monad.
  rewrite Habs. run_monad.
  unfold create_tunnel, save_tunnel_pid, run_ops, run. run_monad.
  rewrite Hssh. run_monad. rewrite Hpg. run_monad. rewrite Hnf. reflexivity.
Qed.

(** C3, as claimed, fails: the [ssh] spawn succeeds, [pgrep] finds no
    process, and [connect_cluster] reports success with no pid and no
    [.pid] file written. *)
Lemma connect_without_pid_writes_no_record :
  let '(r, w') := connect_cluster all_alive ssh_ok_nothing_found true
                    16443 10000 6443 acme_cluster empty_world in
  r = Ok (mk_conn_result true ctx_acme (Some 19107) (Some "10.0.5.20"%string)
            None None)
  /\ pid_files w' !! ctx_acme = None.
Proof. vm_compute. repeat split. Qed.

(** C3 (amended): when no tunnel is running for the context (no [.pid]
    file, or a stale or unparseable one that [is_tunnel_running]
    deletes), after a successful spawn whose pid [pgrep] cannot find,
    [connect_cluster] still succeeds, with [tunnel_pid = None], and
    leaves no [.pid] file ([save_tunnel_pid] writes only a truthy
    pid). *)
Theorem connect_cluster_unknown_pid_no_record os_kill subprocess_run
    (yaml_importable : bool) (range_start range_size target_port : Z)
    (cl : cluster) (w : world) (out err : string) (rc2 : Z)
    (out2 err2 : string)
    (Hstopped : fst (is_tunnel_running os_kill
                       (company cl ++ "-" ++ host_alias cl)%string w) = Ok false)
    (Hssh : subprocess_run
              (ssh_tunnel_cmd (host_alias cl) (cluster_internal_ip cl)
                 (get_unique_port (company cl ++ "-" ++ host_alias cl)
                    range_start range_size) target_port)
            = Completed 0 out err)
    (Hpgrep : subprocess_run
                (pgrep_tunnel_cmd (cluster_internal_ip cl)
                   (get_unique_port (company cl ++ "-" ++ host_alias cl)
                      range_start range_size) target_port)
              = Completed rc2 out2 err2)
    (Hnotfound : found rc2 out2 = false) :
  exists w',
    connect_cluster os_kill subprocess_run yaml_importable range_start
      range_size target_port cl w
    = (Ok (mk_conn_result true (company cl ++ "-" ++ host_alias cl)%string
             (Some (get_unique_port (company cl ++ "-" ++ host_alias cl)
                      range_start range_size))
             (Some (cluster_internal_ip cl)) None None), w')
    /\ pid_files w' !! (company cl ++ "-" ++ host_alias cl)%string = None.
Proof.
  rewrite connect_cluster_unfold.
  destruct (is_tunnel_running os_kill (company cl ++ "-" ++ host_alias cl)%string w)
    as [r w0] eqn:Hr.
  simpl in Hstopped. subst r.
  destruct (is_tunnel_running_false os_kill _ w w0 Hr) as (Habsent & _ & _).
  rewrite (setup_tunnel_not_running os_kill subprocess_run target_port cl
             _ _ _ w w0 Hr).
  rewrite (setup_tunnel_pid_not_found os_kill subprocess_run target_port cl
             _ _ _ w0 out err rc2 out2 err2 Habsent Hssh Hpgrep Hnotfound).
  destruct (save_cluster_network_pid_files yaml_importable cl
    (company cl ++ "-" ++ host_alias cl)%string (cluster_internal_ip cl)
    (log_command (log_command w0
       (ssh_tunnel_cmd (host_alias cl) (cluster_internal_ip cl)
          (get_unique_port (company cl ++ "-" ++ host_alias cl)
             range_start range_size) target_port))
       (pgrep_tunnel_cmd (cluster_internal_ip cl)
          (get_unique_port (company cl ++ "-" ++ host_alias cl)
             range_start range_size) target_port)))
    as (w2 & Hs & Hp & _).
  rewrite Hs. exists w2. split; [reflexivity|]. rewrite Hp. exact Habsent.
Qed.

Lemma connect_cluster_live os_kill subprocess_run (yaml_importable : bool)
    (range_start range_size target_port : Z) (cl : cluster) (w : world)
    (text : string) (pid : Z) :
  pid_files w !! (company cl ++ "-" ++ host_alias cl)%string = Some text ->
  parse_int text = Some pid -> os_kill pid 0 = None ->
  exists w',
    connect_cluster os_kill subprocess_run yaml_importable range_start
      range_size target_port cl w
    = (Ok (mk_conn_result true (company cl ++ "-" ++ host_alias cl)%string
             (Some (get_unique_port (company cl ++ "-" ++ host_alias cl)
                      range_start range_size))
             (Some (cluster_internal_ip cl)) (Some pid) None), w')
    /\ pid_files w' = pid_files w /\ proc_log w' = proc_log w.
Proof.
  intros Hrec Hp Hlive. rewrite connect_cluster_unfold.
  rewrite (setup_tunnel_fast_path os_kill subprocess_run target_port cl _ _ _
             text pid w Hrec Hp Hlive).
  destruct (save_cluster_network_pid_files yaml_importable cl
    (company cl ++ "-" ++ host_alias cl)%string (cluster_internal_ip cl) w)
    as (w2 & Hs & Hpf & Hlog).
  rewrite Hs. exists w2. auto.
Qed.

(** C8 (the kubeconfig fetch modelled from the spec): two calls of
    [connect_cluster] on a context whose recorded process is alive
    both take the fast path: each returns the recorded pid and the port
    [get_unique_port] derives, the [.pid] files are as before, and no
    subprocess (so no [ssh] tunnel) is started. *)
Theorem connect_cluster_twice_idempotent os_kill subprocess_run
    (yaml_importable : bool) (range_start range_size target_port : Z)
    (cl : cluster) (w : world) (text : string) (pid : Z)
    (Hrec : pid_files w !! (company cl ++ "-" ++ host_alias cl)%string
            = Some text)
    (Hpid : parse_int text = Some pid)
    (Hlive : os_kill pid 0 = None) :
  let connect := connect_cluster os_kill subprocess_run yaml_importable
                   range_start range_size target_port cl in
  let expected := mk_conn_result true (company cl ++ "-" ++ host_alias cl)%string
                    (Some (get_unique_port (company cl ++ "-" ++ host_alias cl)
                             range_start range_size))
                    (Some (cluster_internal_ip cl)) (Some pid) None in
  let '(r1, w1) := connect w in
  let '(r2, w2) := connect w1 in
  r1 = Ok expected /\ r2 = Ok expected
  /\ pid_files w2 = pid_files w
  /\ pid_files w2 !! (company cl ++ "-" ++ host_alias cl)%string = Some text
  /\ proc_log w2 = proc_log w.
Proof.
  intros connect expected.
  destruct (connect_cluster_live os_kill subprocess_run yaml_importable
              range_start range_size target_port cl w text pid Hrec Hpid Hlive)
    as (w1 & H1 & Hpf1 & Hlog1).
  unfold connect. rewrite H1.
  rewrite <- Hpf1 in Hrec.
  destruct (connect_cluster_live os_kill subprocess_run yaml_importable
              range_start range_size target_port cl w1 text pid Hrec Hpid Hlive)
    as (w2 & H2 & Hpf2 & Hlog2).
  rewrite H2. split; [reflexivity|]. split; [reflexivity|].
  rewrite Hpf2, Hpf1. split; [reflexivity|]. split.
  - rewrite <- Hpf1. exact Hrec.
  - rewrite Hlog2. exact Hlog1.
Qed.

(* ================================================================= *)
(** ** Network metadata *)

Lemma save_network_metadata_ops_requirement (yaml_importable : bool)
    (ctx : string) (nt nr cmd : option string) (vpn : bool)
    (ip : option string) (c : string) (d : ydict) :
  In (NetFlush c d)
     (save_network_metadata_ops yaml_importable ctx nt nr cmd vpn ip) ->
  meta_requirement d = true.
Proof.
  unfold save_network_metadata_ops.
  destruct (negb (str_truthy nt) && negb vpn) eqn:Hreq; [simpl; tauto|].
  destruct yaml_importable; [|simpl; tauto].
  intros Hin. simpl in Hin.
  destruct Hin as [Hin | [Hin | []]]; [discriminate|].
  injection Hin as _ <-.
  apply andb_false_iff in Hreq.
  unfold meta_requirement, dict_get.
  destruct nt as [s|]; simpl in *.
  - destruct (String.eqb s "") eqn:Hs; simpl in *.
    + destruct Hreq as [Hr | Hr]; [discriminate|].
      destruct vpn; [|discriminate].
      destruct nr, cmd, ip; reflexivity.
    + reflexivity.
  - destruct Hreq as [Hr | Hr]; [discriminate|].
    destruct vpn; [|discriminate].
    destruct nr, cmd, ip; reflexivity.
Qed.

Lemma get_network_metadata_absent (yaml_importable : bool) (ctx : string)
    (w : world) :
  network_files w !! ctx = None ->
  get_network_metadata yaml_importable ctx w = (Ok None, w).
Proof. intros H. unfold get_network_metadata. rewrite H. reflexivity. Qed.

Lemma validate_context_network_absent subprocess_run (yaml_importable : bool)
    (ctx : string) (w : world) :
  network_files w !! ctx = None ->
  validate_context_network subprocess_run yaml_importable ctx w
  = (Ok (true, None), w).
Proof.
  intros H. unfold validate_context_network, bind.
  rewrite (get_network_metadata_absent yaml_importable ctx w H). reflexivity.
Qed.

(** C5, as claimed, fails: the call writes nothing, but a [.network]
    file written earlier for the context stays, and is what
    [get_network_metadata] then reads. *)
Lemma save_no_requirement_keeps_old_metadata :
  let w := mk_world ∅ {[ctx_acme := NetDoc sshuttle_vpn_doc]} [] in
  let '(r, w') := save_network_metadata true ctx_acme None None None false None w in
  r = Ok tt /\ w' = w
  /\ fst (get_network_metadata true ctx_acme w') = Ok (Some sshuttle_vpn_doc).
Proof. vm_compute. repeat split. Qed.

(** C5 (amended): [save_network_metadata] without a truthy
    [network_type] and with [needs_vpn] false changes nothing (it
    neither creates nor removes a file); every document it writes
    records a requirement; and when the context had no [.network] file,
    [get_network_metadata] then gives [None] and
    [validate_context_network] gives [(True, None)]. *)
Theorem save_network_metadata_no_requirement subprocess_run
    (yaml_importable : bool) (ctx : string) (nt nr cmd ip : option string)
    (w : world)
    (Hnt : str_truthy nt = false) :
  save_network_metadata yaml_importable ctx nt nr cmd false ip w = (Ok tt, w)
  /\ (forall ctx' nt' nr' cmd' vpn' ip' c d,
        In (NetFlush c d)
           (save_network_metadata_ops yaml_importable ctx' nt' nr' cmd' vpn' ip') ->
        meta_requirement d = true)
  /\ (network_files w !! ctx = None ->
      fst (get_network_metadata yaml_importable ctx
             (snd (save_network_metadata yaml_importable ctx nt nr cmd false ip w)))
      = Ok None
      /\ fst (validate_context_network subprocess_run yaml_importable ctx
                (snd (save_network_metadata yaml_importable ctx nt nr cmd false ip w)))
         = Ok (true, None)).
Proof.
  assert (Hsave : save_network_metadata yaml_importable ctx nt nr cmd false ip w
                  = (Ok tt, w)).
  { unfold save_network_metadata, save_network_metadata_ops, run_ops.
    rewrite Hnt. reflexivity. }
  split; [exact Hsave|]. split.
  - intros ctx' nt' nr' cmd' vpn' ip' c d.
    apply save_network_metadata_ops_requirement.
  - intros Habs. rewrite Hsave. simpl. split.
    + rewrite (get_network_metadata_absent yaml_importable ctx w Habs). reflexivity.
    + rewrite (validate_context_network_absent subprocess_run yaml_importable
                 ctx w Habs). reflexivity.
Qed.

(* ================================================================= *)
(** ** Network Requirement Validator *)

Lemma check_sshuttle_inactive (subprocess_run : command -> proc_result)
    (network_range : string) (w : world) :
  no_sshuttle_process subprocess_run network_range ->
  exists w', check_sshuttle_active subprocess_run network_range w = (Ok false, w').
Proof.
  intros Hno. unfold check_sshuttle_active, try_except, run, bind, ret.
  pose proof (Hno _ (or_introl eq_refl)) as H1.
  pose proof (Hno _ (or_intror eq_refl)) as H2.
  destruct (subprocess_run (sshuttle_range_cmd network_range))
    as [rc1 out1 err1 | e1].
  - rewrite H1.
    destruct (subprocess_run sshuttle_any_cmd) as [rc2 out2 err2 | e2].
    + rewrite H2. eexists. reflexivity.
    + destruct H2 as [-> | ->]; eexists; reflexivity.
  - destruct H1 as [-> | ->]; eexists; reflexivity.
Qed.

Lemma validate_context_network_vpn subprocess_run (ctx : string) (d : ydict)
    (w : world) :
  network_files w !! ctx = Some (NetDoc d) ->
  yval_truthy (dict_get d "needs_vpn") = true ->
  validate_context_network subprocess_run true ctx w
  = (Ok (false, Some "This cluster requires VPN connection"%string), w).
Proof.
  intros Hf Hvpn. unfold validate_context_network, get_network_metadata, bind.
  rewrite Hf. destruct d as [|kv d]; [discriminate|].
  cbv beta iota zeta. rewrite Hvpn. reflexivity.
Qed.

Lemma validate_context_network_sshuttle_missing subprocess_run (ctx : string)
    (d : ydict) (network_range : string) (w : world) :
  network_files w !! ctx = Some (NetDoc d) ->
  yval_truthy (dict_get d "needs_vpn") = false ->
  dict_get d "network_type" = YStr "sshuttle" ->
  dict_get d "network_range" = YStr network_range ->
  no_sshuttle_process subprocess_run network_range ->
  exists warning w',
    validate_context_network subprocess_run true ctx w
    = (Ok (false, Some warning), w')
    /\ exists pre post, warning = (pre ++ network_range ++ post)%string.
Proof.
  intros Hf Hvpn Htype Hrange Hno.
  destruct (check_sshuttle_inactive subprocess_run network_range w Hno)
    as (w' & Hchk).
  unfold validate_context_network, get_network_metadata, bind.
  rewrite Hf. destruct d as [|kv d]; [discriminate|].
  cbv beta iota zeta. rewrite Hvpn, Htype, Hrange.
  cbv beta iota zeta delta [yval_eqb]. rewrite String.eqb_refl.
  change (py_str (YStr network_range)) with network_range.
  rewrite Hchk. eexists. eexists. split; [reflexivity|].
  exists "This cluster requires sshuttle for "%string. eexists. reflexivity.
Qed.

(** C6, as claimed, fails: a document with [network_type: sshuttle],
    a [network_range] and [needs_vpn: true], with no [sshuttle]
    process, gets the VPN warning, which does not contain the range. *)
Lemma validate_vpn_warning_omits_range :
  let w := mk_world ∅ {[ctx_acme := NetDoc sshuttle_vpn_doc]} [] in
  fst (validate_context_network (fun _ => Completed 1 "" "") true ctx_acme w)
  = Ok (false, Some "This cluster requires VPN connection"%string)
  /\ contains "This cluster requires VPN connection" cidr_90 = false.
Proof. vm_compute. split; reflexivity. Qed.

(** C6 (amended): no [.network] file gives [(True, None)]; a truthy
    [needs_vpn] gives not-satisfied; [network_type: sshuttle] with a
    range, [needs_vpn] not truthy and no [sshuttle] process found gives
    not-satisfied with a warning containing the range. *)
Theorem validate_context_network_cases subprocess_run (ctx : string)
    (w : world) :
  (network_files w !! ctx = None ->
   validate_context_network subprocess_run true ctx w = (Ok (true, None), w))
  /\ (forall d, network_files w !! ctx = Some (NetDoc d) ->
      yval_truthy (dict_get d "needs_vpn") = true ->
      exists msg, fst (validate_context_network subprocess_run true ctx w)
                  = Ok (false, Some msg))
  /\ (forall d network_range,
      network_files w !! ctx = Some (NetDoc d) ->
      yval_truthy (dict_get d "needs_vpn") = false ->
      dict_get d "network_type" = YStr "sshuttle" ->
      dict_get d "network_range" = YStr network_range ->
      no_sshuttle_process subprocess_run network_range ->
      exists warning,
        fst (validate_context_network subprocess_run true ctx w)
        = Ok (false, Some warning)
        /\ exists pre post, warning = (pre ++ network_range ++ post)%string).
Proof.
  split; [|split].
  - apply validate_context_network_absent.
  - intros d Hf Hvpn. eexists.
    rewrite (validate_context_network_vpn subprocess_run ctx d w Hf Hvpn).
    reflexivity.
  - intros d network_range Hf Hvpn Htype Hrange Hno.
    destruct (validate_context_network_sshuttle_missing subprocess_run ctx d
                network_range w Hf Hvpn Htype Hrange Hno)
      as (warning & w' & Hv & Hin).
    exists warning. rewrite Hv. split; [reflexivity|exact Hin].
Qed.

(* ================================================================= *)
(** ** Writes to the state directory *)

(** C7, as claimed, fails: [save_tunnel_pid] and
    [save_network_metadata] write in place, so a crash after
    [open(path, 'w')] leaves an empty file visible that is neither the
    old content nor the new one. *)
Lemma in_place_write_exposes_empty_file :
  let w := mk_world {[ctx_acme := "111"%string]}
                    {[ctx_acme := NetDoc sshuttle_vpn_doc]} [] in
  pid_files (after_steps (save_tunnel_pid_ops ctx_acme (Some 4242)) 1 w)
    !! ctx_acme = Some ""%string
  /\ Some ""%string <> pid_files w !! ctx_acme
  /\ ""%string <> z_to_dec 4242
  /\ network_files
       (after_steps (save_network_metadata_ops true ctx_acme
                       (Some "sshuttle"%string) (Some cidr_90) None false None) 1 w)
       !! ctx_acme = Some NetEmpty.
Proof. vm_compute. repeat split; discriminate. Qed.

(** C7 (amended): a write to the state directory goes through
    [open(path, 'w')] with no rename: at any crash point the visible
    [.pid] file is the old one, an empty file, or the new pid, and the
    visible [.network] file is the old one, an empty file, or the new
    document [network_metadata_doc] builds.  An empty [.pid] file fails [int()] and is deleted as
    stale by [is_tunnel_running]; an empty [.network] file reads as no
    metadata. *)
Theorem state_store_writes_in_place (os_kill : Z -> Z -> option exn)
    (yaml_importable : bool) (ctx : string) (pid : Z)
    (nt nr cmd : option string) (vpn : bool) (ip : option string)
    (w : world) (k : nat) :
  (let v := pid_files (after_steps (save_tunnel_pid_ops ctx (Some pid)) k w) !! ctx in
   v = pid_files w !! ctx \/ v = Some ""%string \/ v = Some (z_to_dec pid))
  /\ (let v := network_files
                 (after_steps (save_network_metadata_ops yaml_importable ctx
                                 nt nr cmd vpn ip) k w) !! ctx in
      v = network_files w !! ctx \/ v = Some NetEmpty
      \/ v = Some (NetDoc (network_metadata_doc nt nr cmd vpn ip)))
  /\ parse_int "" = None
  /\ (forall w', pid_files w' !! ctx = Some ""%string ->
      is_tunnel_running os_kill ctx w'
      = (Ok false, set_pid_files w' (delete ctx (pid_files w'))))
  /\ (forall w', network_files w' !! ctx = Some NetEmpty ->
      fst (get_network_metadata yaml_importable ctx w') = Ok None).
Proof.
  split; [|split; [|split; [|split]]].
  - unfold save_tunnel_pid_ops, pid_truthy.
    destruct (pid =? 0); simpl.
    + left. destruct k; reflexivity.
    + unfold after_steps. destruct k as [|[|k]]; simpl; rewrite ?firstn_nil; simpl.
      * left. reflexivity.
      * right. left. apply lookup_insert_eq.
      * right. right. apply lookup_insert_eq.
  - unfold save_network_metadata_ops.
    destruct (negb (str_truthy nt) && negb vpn); [left; destruct k; reflexivity|].
    destruct yaml_importable; [|left; destruct k; reflexivity].
    unfold after_steps. destruct k as [|[|k]]; simpl; rewrite ?firstn_nil; simpl.
    + left. reflexivity.
    + right. left. apply lookup_insert_eq.
    + right. right. apply lookup_insert_eq.
  - reflexivity.
  - intros w' Hrec. apply (is_tunnel_running_stale os_kill ctx ""%string w' Hrec).
    left. reflexivity.
  - intros w' Hf. unfold get_network_metadata. rewrite Hf.
    destruct yaml_importable; reflexivity.
Qed.

(* ================================================================= *)

(** ** Stored records, the connect phase and the inventory *)

Lemma digit_char_ok (d : Z) : 0 <= d < 10 ->
  is_digit (digit_char d) = true /\ digit_value (digit_char d) = d.
Proof.
  intros Hd. unfold is_digit, digit_value, digit_char.
  rewrite nat_ascii_embedding by lia.
  split.
  - apply andb_true_intro. split; apply Nat.leb_le; lia.
  - rewrite Z2Nat.id by lia. lia.
Qed.

Lemma dec_digits_correct (fuel : nat) (n : Z) (acc : list ascii) :
  (fuel <> 0)%nat -> 0 <= n < 10 ^ Z.of_nat fuel ->
  exists ds, dec_digits fuel n acc = ds ++ acc /\ ds <> []
   /\ Forall (fun c => is_digit c = true) ds
   /\ forall a, val_digits ds a = a * 10 ^ Z.of_nat (length ds) + n.
Proof.
  revert n acc. induction fuel as [|f IH]; intros n acc Hf Hn.
  - congruence.
  - simpl. destruct (n <? 10) eqn:Hlt.
    + apply Z.ltb_lt in Hlt. destruct (digit_char_ok n ltac:(lia)) as [Hd Hv].
      exists [digit_char n]. split; [reflexivity|]. split; [discriminate|].
      split; [constructor; auto|].
      intros a. unfold val_digits. simpl. rewrite Hv. lia.
    + apply Z.ltb_ge in Hlt.
      assert (Hq : 0 <= n / 10 < 10 ^ Z.of_nat f).
      { rewrite Nat2Z.inj_succ, Z.pow_succ_r in Hn by lia.
        split; [apply Z.div_pos; lia|]. apply Z.div_lt_upper_bound; lia. }
      assert (Hf0 : f <> 0%nat) by (intros ->; simpl in Hn; lia).
      destruct (IH (n / 10) (digit_char (n mod 10) :: acc) Hf0 Hq)
        as (ds & Heq & Hne & Hall & Hval).
      destruct (digit_char_ok (n mod 10) ltac:(pose proof (Z.mod_pos_bound n 10); lia))
        as [Hd Hv].
      exists (ds ++ [digit_char (n mod 10)]). rewrite Heq, <- app_assoc.
      split; [reflexivity|]. split; [destruct ds; simpl; discriminate|].
      split; [apply Forall_app; split; auto|].
      intros a. unfold val_digits in *. rewrite fold_left_app. simpl.
      rewrite Hval, Hv, length_app. simpl length.
      rewrite Nat2Z.inj_add, Z.pow_add_r by lia.
      pose proof (Z.div_mod n 10 ltac:(lia)). lia.
Qed.

Lemma parse_digits_all (ds : list ascii) (acc : Z) (b : bool) :
  ds <> [] -> Forall (fun c => is_digit c = true) ds ->
  parse_digits ds acc b = Some (val_digits ds acc).
Proof.
  revert acc b. induction ds as [|c ds IH]; intros acc b Hne Hall; [congruence|].
  inversion Hall as [|? ? Hc Hds]; subst. simpl. rewrite Hc.
  destruct ds as [|c' ds'].
  - reflexivity.
  - apply IH; [discriminate|exact Hds].
Qed.

Lemma digit_not_space (c : ascii) : is_digit c = true -> is_space c = false.
Proof.
  unfold is_digit, is_space. intros Hc.
  apply andb_prop in Hc as [H1 H2]. apply Nat.leb_le in H1, H2.
  destruct ((9 <=? nat_of_ascii c)%nat && (nat_of_ascii c <=? 13)%nat) eqn:E1.
  { apply andb_prop in E1 as [_ E]. apply Nat.leb_le in E. lia. }
  destruct ((28 <=? nat_of_ascii c)%nat && (nat_of_ascii c <=? 32)%nat) eqn:E2.
  { apply andb_prop in E2 as [_ E]. apply Nat.leb_le in E. lia. }
  reflexivity.
Qed.

Lemma strip_id (x : ascii) (r l : list ascii) (c : ascii) :
  is_space x = false -> is_space c = false -> x :: r = l ++ [c] ->
  strip (string_of_list_ascii (x :: r)) = string_of_list_ascii (x :: r).
Proof.
  intros Hx Hc Hl. unfold strip. rewrite list_ascii_of_string_of_list_ascii.
  assert (H1 : lstrip (x :: r) = x :: r) by (cbn [lstrip]; rewrite Hx; reflexivity).
  assert (H2 : rev (x :: r) = c :: rev l) by (rewrite Hl, rev_app_distr; reflexivity).
  rewrite H1, H2. cbn [lstrip]. rewrite Hc. rewrite <- H2, rev_involutive.
  reflexivity.
Qed.

Lemma parse_int_digit_head (d : ascii) (ds : list ascii) :
  is_digit d = true ->
  match d :: ds with
  | "-"%char :: r => option_map Z.opp (parse_digits r 0 false)
  | "+"%char :: r => parse_digits r 0 false
  | l => parse_digits l 0 false
  end = parse_digits (d :: ds) 0 false.
Proof.
  intros Hd.
  destruct d as [[] [] [] [] [] [] [] []]; try reflexivity.
  all: exfalso; revert Hd; vm_compute; congruence.
Qed.

Lemma z_to_dec_parse (n : Z) : parse_int (z_to_dec n) = Some n.
Proof.
  unfold z_to_dec.
  set (a := Z.abs n).
  assert (Hfuel : 0 <= a < 10 ^ Z.of_nat (S (Z.to_nat (Z.log2 a)))).
  { split; [lia|]. destruct (Z.eq_dec a 0) as [H0|H0]; [rewrite H0; simpl; lia|].
    pose proof (Z.log2_spec a ltac:(lia)) as [_ Hlt].
    pose proof (Z.log2_nonneg a).
    rewrite Nat2Z.inj_succ, Z2Nat.id by lia.
    eapply Z.lt_le_trans; [exact Hlt|].
    apply Z.pow_le_mono_l. lia. }
  destruct (dec_digits_correct (S (Z.to_nat (Z.log2 a))) a [] ltac:(discriminate) Hfuel) as (ds & Heq & Hne & Hall & Hval).
  rewrite Heq, app_nil_r.
  destruct ds as [|d ds']; [congruence|].
  assert (Hd : is_digit d = true) by (inversion Hall; auto).
  destruct (exists_last (l := d :: ds') ltac:(discriminate)) as (l & c & Hlc).
  assert (Hc : is_digit c = true).
  { rewrite Hlc in Hall. apply Forall_app in Hall as [_ Hc]. inversion Hc; auto. }
  pose proof (Hval 0) as Hv0. rewrite Z.mul_0_l, Z.add_0_l in Hv0.
  destruct (n <? 0) eqn:Hneg.
  - apply Z.ltb_lt in Hneg.
    unfold parse_int. rewrite (strip_id "-" (d :: ds') ("-"%char :: l) c);
      [| reflexivity | apply digit_not_space; exact Hc | rewrite Hlc; reflexivity].
    rewrite list_ascii_of_string_of_list_ascii.
    rewrite (parse_digits_all (d :: ds') 0 false Hne Hall), Hv0.
    simpl. f_equal. unfold a. lia.
  - apply Z.ltb_ge in Hneg.
    unfold parse_int. rewrite (strip_id d ds' l c) by (auto using digit_not_space).
    rewrite list_ascii_of_string_of_list_ascii, parse_int_digit_head by exact Hd.
    rewrite (parse_digits_all (d :: ds') 0 false Hne Hall), Hv0. f_equal.
    unfold a. lia.
Qed.

Lemma get_tunnel_pid_eq os_kill ctx w :
  get_tunnel_pid os_kill ctx w =
  match pid_files w !! ctx with
  | None => (Ok None, w)
  | Some text =>
      match parse_int text with
      | None => (Ok None, w)
      | Some p =>
          match os_kill p 0 with
          | None => (Ok (Some p), w)
          | Some e => if stale_pid_error e then (Ok None, w) else (Err e, w)
          end
      end
  end.
Proof.
  unfold get_tunnel_pid. run_monad.
  destruct (pid_files w !! ctx) as [text|] eqn:Hrec; run_monad; [|reflexivity].
  rewrite Hrec. run_monad.
  destruct (parse_int text) as [p|]; run_monad; [|reflexivity].
  destruct (os_kill p 0) as [e|]; run_monad; [|reflexivity].
  destruct (stale_pid_error e); reflexivity.
Qed.

Lemma get_network_metadata_state yi ctx w :
  get_network_metadata yi ctx w = (fst (get_network_metadata yi ctx w), w)
  /\ exists m, fst (get_network_metadata yi ctx w) = Ok m.
Proof.
  unfold get_network_metadata.
  destruct (network_files w !! ctx) as [f|]; [|eauto].
  destruct yi; [|eauto]. destruct f; eauto.
Qed.

Lemma get_network_metadata_files yi ctx w w' :
  network_files w' = network_files w ->
  fst (get_network_metadata yi ctx w') = fst (get_network_metadata yi ctx w).
Proof.
  intros H. unfold get_network_metadata. rewrite H.
  destruct (network_files w !! ctx) as [f|]; [|reflexivity].
  destruct yi; [destruct f|]; reflexivity.
Qed.

(** X1: after [save_tunnel_pid] stores a non-zero live pid, the record holds its
    decimal text, [is_tunnel_running] answers true and [get_tunnel_pid] returns the
    pid, neither changing the world. *)
Theorem saved_pid_reads_back os_kill (ctx : string) (p : Z) (w : world)
    (Hp : p <> 0) (Halive : os_kill p 0 = None) :
  let w1 := snd (save_tunnel_pid ctx (Some p) w) in
  pid_files w1 !! ctx = Some (z_to_dec p)
  /\ is_tunnel_running os_kill ctx w1 = (Ok true, w1)
  /\ get_tunnel_pid os_kill ctx w1 = (Ok (Some p), w1).
Proof.
  intros w1.
  assert (Hrec : pid_files w1 !! ctx = Some (z_to_dec p)).
  { unfold w1, save_tunnel_pid, save_tunnel_pid_ops, run_ops, pid_truthy.
    apply Z.eqb_neq in Hp. rewrite Hp. simpl. apply lookup_insert_eq. }
  split; [exact Hrec|]. split.
  - rewrite is_tunnel_running_eq, Hrec, z_to_dec_parse, Halive. reflexivity.
  - rewrite get_tunnel_pid_eq, Hrec, z_to_dec_parse, Halive. reflexivity.
Qed.

Lemma context_status_eq os_kill yi ctx w text :
  pid_files w !! ctx = Some text ->
  (forall p e, parse_int text = Some p -> os_kill p 0 = Some e ->
               stale_pid_error e = true) ->
  exists s, context_status os_kill yi ctx w = (Ok s, after_status os_kill ctx w)
            /\ name s = ctx /\ status_ok os_kill yi w s.
Proof.
  intros Hrec Hst. unfold context_status, after_status, bind, ret.
  rewrite is_tunnel_running_eq, Hrec. unfold status_ok, live_record, live_pid.
  destruct (parse_int text) as [p|] eqn:Hp.
  - destruct (os_kill p 0) as [e|] eqn:Hk.
    + rewrite (Hst p e eq_refl Hk).
      set (w1 := set_pid_files w (delete ctx (pid_files w))).
      destruct (get_network_metadata_state yi ctx w1) as [Hg [m Hm]].
      rewrite Hg, Hm. eexists. split; [reflexivity|]. split; [reflexivity|].
      exists text. simpl. rewrite Hp, Hk. repeat split; auto.
      rewrite <- Hm. apply get_network_metadata_files. reflexivity.
    + rewrite get_tunnel_pid_eq, Hrec, Hp, Hk.
      destruct (get_network_metadata_state yi ctx w) as [Hg [m Hm]].
      rewrite Hg, Hm. eexists. split; [reflexivity|]. split; [reflexivity|].
      exists text. simpl. rewrite Hp, Hk. repeat split; auto.
  - set (w1 := set_pid_files w (delete ctx (pid_files w))).
    destruct (get_network_metadata_state yi ctx w1) as [Hg [m Hm]].
    rewrite Hg, Hm. eexists. split; [reflexivity|]. split; [reflexivity|].
    exists text. simpl. rewrite Hp. repeat split; auto.
    rewrite <- Hm. apply get_network_metadata_files. reflexivity.
Qed.

Lemma after_status_other os_kill c w k :
  k <> c -> pid_files (after_status os_kill c w) !! k = pid_files w !! k.
Proof.
  intros Hk. unfold after_status.
  destruct (pid_files w !! c) as [t|]; [|reflexivity].
  destruct (live_record os_kill t); [reflexivity|].
  simpl. apply lookup_delete_ne. congruence.
Qed.

Lemma after_status_self os_kill c w :
  pid_files (after_status os_kill c w) !! c = live_filter os_kill (pid_files w !! c).
Proof.
  unfold after_status, live_filter.
  destruct (pid_files w !! c) as [t|] eqn:Hc; [|exact Hc].
  destruct (live_record os_kill t); [exact Hc|]. apply lookup_delete_eq.
Qed.

Lemma after_status_files os_kill c w :
  network_files (after_status os_kill c w) = network_files w
  /\ proc_log (after_status os_kill c w) = proc_log w.
Proof.
  unfold after_status. destruct (pid_files w !! c) as [t|]; [|auto].
  destruct (live_record os_kill t); auto.
Qed.

Lemma after_status_sub os_kill c w k t :
  pid_files (after_status os_kill c w) !! k = Some t -> pid_files w !! k = Some t.
Proof.
  destruct (decide (k = c)) as [->|Hne].
  - rewrite after_status_self. unfold live_filter.
    destruct (pid_files w !! c) as [t'|]; [|discriminate].
    destruct (live_record os_kill t'); congruence.
  - rewrite after_status_other by exact Hne. auto.
Qed.

Lemma after_statuses_lookup os_kill l w k :
  NoDup l ->
  pid_files (after_statuses os_kill l w) !! k
  = if bool_decide (k ∈ l) then live_filter os_kill (pid_files w !! k)
    else pid_files w !! k.
Proof.
  unfold after_statuses. revert w. induction l as [|c r IH]; intros w Hnd.
  - reflexivity.
  - apply NoDup_cons in Hnd as [Hc Hr]. simpl. rewrite IH by exact Hr.
    destruct (decide (k = c)) as [->|Hne].
    + rewrite bool_decide_false by exact Hc.
      rewrite bool_decide_true by (left; reflexivity).
      apply after_status_self.
    + rewrite after_status_other by exact Hne.
      destruct (bool_decide (k ∈ r)) eqn:Hin.
      * apply bool_decide_eq_true in Hin.
        rewrite bool_decide_true by (right; exact Hin). reflexivity.
      * apply bool_decide_eq_false in Hin.
        rewrite bool_decide_false; [reflexivity|].
        intros Hk. apply elem_of_cons in Hk as [Hk|Hk]; contradiction.
Qed.

Lemma after_statuses_files os_kill l w :
  network_files (after_statuses os_kill l w) = network_files w
  /\ proc_log (after_statuses os_kill l w) = proc_log w.
Proof.
  unfold after_statuses. revert w. induction l as [|c r IH]; intros w; [auto|].
  simpl. destruct (IH (after_status os_kill c w)) as [H1 H2].
  destruct (after_status_files os_kill c w) as [H3 H4]. split; congruence.
Qed.

Lemma context_statuses_eq os_kill yi l w :
  NoDup l -> Forall (fun c => pid_files w !! c <> None) l ->
  stale_errors_only os_kill w ->
  exists ss, context_statuses os_kill yi l w = (Ok ss, after_statuses os_kill l w)
    /\ map name ss = l /\ Forall (status_ok os_kill yi w) ss.
Proof.
  revert w. induction l as [|c r IH]; intros w Hnd Hin Hst.
  - exists []. split; [reflexivity|]. split; constructor.
  - apply NoDup_cons in Hnd as [Hc Hr]. inversion Hin as [|? ? Hcin Hrin]; subst.
    destruct (pid_files w !! c) as [text|] eqn:Hrec; [|congruence].
    destruct (context_status_eq os_kill yi c w text Hrec
                (fun p e Hp Hk => Hst c text p e Hrec Hp Hk)) as (s & Hs & Hname & Hok).
    set (w1 := after_status os_kill c w).
    assert (Hrin1 : Forall (fun c' => pid_files w1 !! c' <> None) r).
    { apply Forall_forall. intros c' Hc'. unfold w1.
      rewrite after_status_other by (intros ->; contradiction).
      rewrite Forall_forall in Hrin. auto. }
    assert (Hst1 : stale_errors_only os_kill w1).
    { intros k t p e Hk. apply (Hst k t p e). eapply after_status_sub. exact Hk. }
    destruct (IH w1 Hr Hrin1 Hst1) as (ss & Hss & Hnames & Hoks).
    exists (s :: ss). simpl. unfold bind, ret. rewrite Hs. fold w1. rewrite Hss.
    split; [reflexivity|]. split; [simpl; congruence|].
    constructor; [exact Hok|].
    rewrite Forall_forall in Hoks |- *. intros s' Hs'.
    destruct (Hoks s' Hs') as (t & Ht & H1 & H2 & H3 & H4).
    assert (Hne : name s' <> c).
    { intros Heq. apply Hc. rewrite <- Hnames, <- Heq. apply list_elem_of_In, in_map, list_elem_of_In. exact Hs'. }
    exists t. unfold w1 in Ht. rewrite after_status_other in Ht by exact Hne.
    repeat split; auto. rewrite <- H4. symmetry. apply get_network_metadata_files.
    apply after_status_files.
Qed.

Lemma pid_contexts_spec (w : world) :
  NoDup (pid_contexts w) /\
  forall ctx, ctx ∈ pid_contexts w <-> pid_files w !! ctx <> None.
Proof.
  assert (Hmap : pid_contexts w = (map_to_list (pid_files w)).*1).
  { unfold pid_contexts. induction (map_to_list (pid_files w)) as [|x l IH];
      [reflexivity|]. simpl. rewrite IH. reflexivity. }
  rewrite Hmap. split; [apply NoDup_fst_map_to_list|].
  intros ctx. rewrite list_elem_of_fmap. split.
  - intros ([k v] & -> & Hkv). apply elem_of_map_to_list in Hkv. simpl. congruence.
  - intros Hk. destruct (pid_files w !! ctx) as [v|] eqn:Hv; [|congruence].
    exists (ctx, v). split; [reflexivity|]. apply elem_of_map_to_list. exact Hv.
Qed.

Lemma list_all_contexts_eq os_kill yi w :
  stale_errors_only os_kill w ->
  exists ss, list_all_contexts os_kill yi w
             = (Ok (merge_sort name_le ss), after_statuses os_kill (pid_contexts w) w)
    /\ map name ss = pid_contexts w /\ Forall (status_ok os_kill yi w) ss.
Proof.
  intros Hst. destruct (pid_contexts_spec w) as [Hnd Hin].
  destruct (context_statuses_eq os_kill yi (pid_contexts w) w Hnd) as (ss & Hss & Hn & Hok).
  - apply Forall_forall. intros c Hc. apply Hin. exact Hc.
  - exact Hst.
  - exists ss. unfold list_all_contexts, bind, ret. rewrite Hss. auto.
Qed.

(** X2: when every failing probe is a stale one, [list_all_contexts] returns one
    entry per pid record, sorted by name without duplicates, each with the liveness,
    pid, port (in [16443, 26443)) and network metadata read from its record. *)
Theorem list_all_contexts_entries os_kill (yaml_importable : bool) (w : world)
    (Hstale : stale_errors_only os_kill w) :
  exists l w', list_all_contexts os_kill yaml_importable w = (Ok l, w')
  /\ Sorted name_le l
  /\ NoDup (map name l)
  /\ (forall ctx, ctx ∈ map name l <-> pid_files w !! ctx <> None)
  /\ Forall (fun s => exists text,
         pid_files w !! name s = Some text
         /\ tunnel_running s = live_record os_kill text
         /\ status_tunnel_pid s = live_pid os_kill text
         /\ status_local_port s = get_tunnel_port (name s)
         /\ 16443 <= status_local_port s < 26443
         /\ get_network_metadata yaml_importable (name s) w
            = (Ok (network_metadata s), w)) l.
Proof.
  destruct (list_all_contexts_eq os_kill yaml_importable w Hstale) as (ss & Heq & Hn & Hok).
  destruct (pid_contexts_spec w) as [Hnd Hin].
  pose proof (merge_sort_Permutation name_le ss) as Hperm.
  exists (merge_sort name_le ss), (after_statuses os_kill (pid_contexts w) w).
  split; [exact Heq|].
  split; [apply Sorted_merge_sort; intros a b; apply String.leb_total|].
  assert (Hnames : map name (merge_sort name_le ss) ≡ₚ pid_contexts w).
  { rewrite <- Hn. apply Permutation_map. exact Hperm. }
  split; [rewrite Hnames; exact Hnd|].
  split; [intros ctx; rewrite Hnames; apply Hin|].
  apply Forall_forall. intros s Hs.
  assert (Hs' : s ∈ ss) by (rewrite <- Hperm; exact Hs).
  rewrite Forall_forall in Hok.
  destruct (Hok s Hs') as (t & Ht & H1 & H2 & H3 & H4).
  exists t. repeat split; auto.
  - pose proof (get_unique_port_bounds (name s) 16443 10000 ltac:(lia)).
    unfold get_tunnel_port in H3. lia.
  - pose proof (get_unique_port_bounds (name s) 16443 10000 ltac:(lia)).
    unfold get_tunnel_port in H3. lia.
  - destruct (get_network_metadata_state yaml_importable (name s) w) as [Hg _].
    rewrite Hg, H4. reflexivity.
Qed.

(** X3: [list_all_contexts] keeps exactly the records of live tunnels, removes the
    stale ones and leaves the network files and the command log alone. *)
Theorem list_all_contexts_prunes_stale os_kill (yaml_importable : bool)
    (w : world) (Hstale : stale_errors_only os_kill w) :
  exists l w', list_all_contexts os_kill yaml_importable w = (Ok l, w')
  /\ (forall ctx, pid_files w' !! ctx = live_filter os_kill (pid_files w !! ctx))
  /\ network_files w' = network_files w
  /\ proc_log w' = proc_log w.
Proof.
  destruct (list_all_contexts_eq os_kill yaml_importable w Hstale) as (ss & Heq & _ & _).
  destruct (pid_contexts_spec w) as [Hnd Hin].
  eexists _, _. split; [exact Heq|]. split.
  - intros ctx. rewrite after_statuses_lookup by exact Hnd.
    destruct (bool_decide (ctx ∈ pid_contexts w)) eqn:Hb; [reflexivity|].
    apply bool_decide_eq_false in Hb.
    destruct (pid_files w !! ctx) eqn:Hc; [|reflexivity].
    exfalso. apply Hb, Hin. congruence.
  - apply after_statuses_files.
Qed.

Lemma context_status_state os_kill yi c w :
  snd (context_status os_kill yi c w) = w
  \/ snd (context_status os_kill yi c w) = set_pid_files w (delete c (pid_files w)).
Proof.
  unfold context_status, bind, ret.
  assert (Hnm : forall w', snd (match get_network_metadata yi c w' with
                               | (Ok a, w'') => (Ok (mk_ctx_status c false None (get_tunnel_port c) a), w'')
                               | (Err e, w'') => (Err e, w'') end) = w').
  { intros w'. destruct (get_network_metadata_state yi c w') as [Hg [m Hm]].
    rewrite Hg, Hm. reflexivity. }
  rewrite is_tunnel_running_eq.
  destruct (pid_files w !! c) as [text|] eqn:Hrec; [|left; apply Hnm].
  destruct (parse_int text) as [p|] eqn:Hp; [|right; apply Hnm].
  destruct (os_kill p 0) as [e|] eqn:Hk.
  - destruct (stale_pid_error e); [right; apply Hnm|left; reflexivity].
  - left. rewrite get_tunnel_pid_eq, Hrec, Hp, Hk.
    destruct (get_network_metadata_state yi c w) as [Hg [m Hm]].
    rewrite Hg, Hm. reflexivity.
Qed.

Lemma context_statuses_raise os_kill yi l w ctx text p e :
  ctx ∈ l -> pid_files w !! ctx = Some text -> parse_int text = Some p ->
  os_kill p 0 = Some e -> stale_pid_error e = false ->
  exists e' w', context_statuses os_kill yi l w = (Err e', w').
Proof.
  revert w. induction l as [|c r IH]; intros w Hin Hrec Hp Hk He.
  - apply elem_of_nil in Hin. contradiction.
  - simpl. unfold bind at 1.
    destruct (decide (c = ctx)) as [->|Hne].
    + unfold context_status at 1, bind at 1.
      rewrite is_tunnel_running_eq, Hrec, Hp, Hk, He. eauto.
    + destruct (context_status os_kill yi c w) as [[s|e'] w1] eqn:Hcs; [|eauto].
      apply elem_of_cons in Hin as [Hin|Hin]; [congruence|].
      assert (Hrec1 : pid_files w1 !! ctx = Some text).
      { destruct (context_status_state os_kill yi c w) as [Hw|Hw];
          rewrite Hcs in Hw; simpl in Hw; subst w1; [exact Hrec|].
        simpl. rewrite lookup_delete_ne by congruence. exact Hrec. }
      destruct (IH w1 Hin Hrec1 Hp Hk He) as (e'' & w'' & Hr).
      unfold bind. rewrite Hr. eauto.
Qed.

(** X4: an error of the signal-0 probe that the tunnel module does not catch
    propagates out of [is_tunnel_running], [get_tunnel_pid] and [list_all_contexts]. *)
Theorem uncaught_kill_error_propagates os_kill (yaml_importable : bool)
    (ctx text : string) (p : Z) (e : exn) (w : world)
    (Hrec : pid_files w !! ctx = Some text)
    (Hp : parse_int text = Some p)
    (Hk : os_kill p 0 = Some e)
    (He : stale_pid_error e = false) :
  is_tunnel_running os_kill ctx w = (Err e, w)
  /\ get_tunnel_pid os_kill ctx w = (Err e, w)
  /\ exists e' w', list_all_contexts os_kill yaml_importable w = (Err e', w').
Proof.
  split; [rewrite is_tunnel_running_eq, Hrec, Hp, Hk, He; reflexivity|].
  split; [rewrite get_tunnel_pid_eq, Hrec, Hp, Hk, He; reflexivity|].
  destruct (pid_contexts_spec w) as [_ Hin].
  destruct (context_statuses_raise os_kill yaml_importable (pid_contexts w) w ctx text p e)
    as (e' & w' & Hr); auto.
  - apply Hin. congruence.
  - exists e', w'. unfold list_all_contexts, bind. rewrite Hr. reflexivity.
Qed.

Lemma set_pid_files_twice (w : world) (m m' : gmap string string) :
  set_pid_files (set_pid_files w m) m' = set_pid_files w m'.
Proof. destruct w. reflexivity. Qed.

Lemma kill_caught_delete os_kill c c' w :
  kill_caught os_kill c w ->
  kill_caught os_kill c (set_pid_files w (delete c' (pid_files w))).
Proof.
  intros H text p Hrec Hp. simpl in Hrec.
  apply lookup_delete_Some in Hrec as [_ Hrec]. exact (H text p Hrec Hp).
Qed.

Lemma delete_all_lookup (l : list string) (m : gmap string string) (k : string) :
  delete_all l m !! k = if bool_decide (k ∈ l) then None else m !! k.
Proof.
  unfold delete_all. revert m. induction l as [|c r IH]; intros m; [reflexivity|].
  simpl. rewrite IH.
  destruct (bool_decide (k ∈ r)) eqn:Hr.
  - apply bool_decide_eq_true in Hr. rewrite bool_decide_true; [reflexivity|].
    right. exact Hr.
  - apply bool_decide_eq_false in Hr. destruct (decide (k = c)) as [->|Hne].
    + rewrite bool_decide_true by (left; reflexivity). apply lookup_delete_eq.
    + rewrite bool_decide_false.
      * apply lookup_delete_ne. congruence.
      * intros Hk. apply elem_of_cons in Hk as [Hk|Hk]; contradiction.
Qed.

Lemma kill_tunnels_effect os_kill (l : list string) (w : world) :
  (forall c, c ∈ l -> kill_caught os_kill c w) ->
  kill_tunnels os_kill l w = (Ok tt, set_pid_files w (delete_all l (pid_files w))).
Proof.
  unfold delete_all. revert w. induction l as [|c r IH]; intros w Hc.
  - simpl. rewrite set_pid_files_same. reflexivity.
  - simpl. unfold bind.
    rewrite (kill_tunnel_effect os_kill c w) by (apply Hc; left; reflexivity).
    rewrite IH.
    + rewrite set_pid_files_twice. reflexivity.
    + intros c' Hc'. apply kill_caught_delete. apply Hc. right. exact Hc'.
Qed.

(** X5: when every record's kill is caught, [kill_all_tunnels] succeeds and leaves
    no pid record, so a later [list_all_contexts] finds no context. *)
Theorem kill_all_tunnels_clears_records os_kill (yaml_importable : bool)
    (w : world) (Hcaught : forall ctx, kill_caught os_kill ctx w) :
  let '(r, w') := kill_all_tunnels os_kill w in
  r = Ok tt /\ pid_files w' = ∅
  /\ network_files w' = network_files w /\ proc_log w' = proc_log w
  /\ list_all_contexts os_kill yaml_importable w' = (Ok [], w').
Proof.
  unfold kill_all_tunnels.
  rewrite (kill_tunnels_effect os_kill (pid_contexts w) w) by auto.
  destruct (pid_contexts_spec w) as [_ Hin].
  assert (Hempty : delete_all (pid_contexts w) (pid_files w) = ∅).
  { apply map_eq. intros k. rewrite delete_all_lookup, lookup_empty.
    destruct (bool_decide (k ∈ pid_contexts w)) eqn:Hb; [reflexivity|].
    apply bool_decide_eq_false in Hb.
    destruct (pid_files w !! k) eqn:Hk; [|reflexivity].
    exfalso. apply Hb, Hin. congruence. }
  rewrite Hempty. split; [reflexivity|]. split; [reflexivity|].
  split; [reflexivity|]. split; [reflexivity|].
  unfold list_all_contexts, pid_contexts. simpl pid_files.
  rewrite map_to_list_empty. reflexivity.
Qed.

Lemma kill_tunnels_raise os_kill (pre rest : list string) (ctx text : string)
    (p : Z) (e : exn) (w : world) :
  (forall c, c ∈ pre -> kill_caught os_kill c w) -> ctx ∉ pre ->
  pid_files w !! ctx = Some text -> parse_int text = Some p ->
  os_kill p 15 = Some e -> stale_pid_error e = false ->
  kill_tunnels os_kill (pre ++ ctx :: rest) w
  = (Err e, set_pid_files w (delete ctx (delete_all pre (pid_files w)))).
Proof.
  unfold delete_all. revert w. induction pre as [|c r IH]; intros w Hc Hnin Hrec Hp Hk He.
  - simpl. unfold bind, kill_tunnel. run_monad. rewrite Hrec. run_monad.
    rewrite Hrec. run_monad. rewrite Hp. run_monad. rewrite Hk. run_monad.
    rewrite He. reflexivity.
  - simpl. unfold bind at 1.
    rewrite (kill_tunnel_effect os_kill c w) by (apply Hc; left; reflexivity).
    rewrite IH.
    + rewrite set_pid_files_twice. reflexivity.
    + intros c' Hc'. apply kill_caught_delete. apply Hc. right. exact Hc'.
    + intros Hin. apply Hnin. right. exact Hin.
    + assert (Hne : c <> ctx) by (intros ->; apply Hnin; left; reflexivity).
      simpl. rewrite lookup_delete_ne by congruence. exact Hrec.
    + exact Hp.
    + exact Hk.
    + exact He.
Qed.

(** X6: [kill_all_tunnels] stops at the first record whose SIGTERM fails with an
    uncaught error: that record and the ones before it are removed, the later ones
    are kept, and the error propagates. *)
Theorem kill_all_tunnels_stops_at_uncaught os_kill (w : world)
    (pre rest : list string) (ctx text : string) (p : Z) (e : exn)
    (Horder : pid_contexts w = pre ++ ctx :: rest)
    (Hpre : forall c, c ∈ pre -> kill_caught os_kill c w)
    (Hrec : pid_files w !! ctx = Some text)
    (Hp : parse_int text = Some p)
    (Hk : os_kill p 15 = Some e)
    (He : stale_pid_error e = false) :
  let '(r, w') := kill_all_tunnels os_kill w in
  r = Err e
  /\ pid_files w' !! ctx = None
  /\ (forall c, c ∈ pre -> pid_files w' !! c = None)
  /\ (forall c, c ∈ rest -> pid_files w' !! c = pid_files w !! c).
Proof.
  destruct (pid_contexts_spec w) as [Hnd _].
  rewrite Horder in Hnd. apply NoDup_app in Hnd as (Hndpre & Hdisj & Hndrest).
  apply NoDup_cons in Hndrest as [Hctx _].
  assert (Hnin : ctx ∉ pre) by (intros Hin; apply (Hdisj ctx Hin); left; reflexivity).
  unfold kill_all_tunnels. rewrite Horder.
  rewrite (kill_tunnels_raise os_kill pre rest ctx text p e w) by auto.
  simpl. split; [reflexivity|]. split; [apply lookup_delete_eq|]. split.
  - intros c Hc. rewrite lookup_delete_ne by (intros ->; contradiction).
    rewrite delete_all_lookup, bool_decide_true by exact Hc. reflexivity.
  - intros c Hc. rewrite lookup_delete_ne by (intros ->; contradiction).
    rewrite delete_all_lookup, bool_decide_false; [reflexivity|].
    intros Hin. apply (Hdisj c Hin). right. exact Hc.
Qed.

Lemma connect_cluster_total os_kill subprocess_run yaml_importable
    (range_start range_size target_port : Z) (cl : cluster) (w : world) :
  exists r w', connect_cluster os_kill subprocess_run yaml_importable
                 range_start range_size target_port cl w = (Ok r, w')
  /\ context_name r = (company cl ++ "-" ++ host_alias cl)%string
  /\ (success r = true <-> error r = None).
Proof.
  rewrite connect_cluster_unfold.
  destruct (setup_tunnel _ _ _ _ _ _ _ w) as [[pid|e] w1].
  - destruct (save_cluster_network _ _ _ _ w1) as [[u|e] w2];
      eexists _, _; (split; [reflexivity|]); simpl; split; try reflexivity;
      split; congruence.
  - eexists _, _. split; [reflexivity|]. simpl. split; [reflexivity|].
    split; congruence.
Qed.

(** X7: [connect_cluster] never raises; its result is named after the cluster and
    it is a success exactly when it carries no error. *)
Theorem connect_cluster_never_raises os_kill subprocess_run yaml_importable
    (range_start range_size target_port : Z) (cl : cluster) (w : world) :
  exists r w', connect_cluster os_kill subprocess_run yaml_importable
                 range_start range_size target_port cl w = (Ok r, w')
  /\ context_name r = (company cl ++ "-" ++ host_alias cl)%string
  /\ (success r = true <-> error r = None).
Proof. apply connect_cluster_total. Qed.

Lemma connect_all_total os_kill subprocess_run yaml_importable
    (range_start range_size target_port : Z) (cls : list cluster) (w : world) :
  exists rs w', connect_all os_kill subprocess_run yaml_importable
                  range_start range_size target_port cls w = (Ok rs, w')
  /\ map context_name rs = map (fun c => (company c ++ "-" ++ host_alias c)%string) cls
  /\ Forall (fun r => success r = true <-> error r = None) rs.
Proof.
  revert w. induction cls as [|c r IH]; intros w.
  - exists [], w. split; [reflexivity|]. split; [reflexivity|constructor].
  - simpl. unfold bind at 1.
    destruct (connect_cluster_total os_kill subprocess_run yaml_importable
                range_start range_size target_port c w) as (res & w1 & Hc & Hn & Hs).
    rewrite Hc. destruct (IH w1) as (rs & w2 & Hr & Hns & Hss).
    unfold bind. rewrite Hr. exists (res :: rs), w2.
    split; [reflexivity|]. split; [simpl; congruence|]. constructor; auto.
Qed.

(** X8: the connect loop of [main] gives one result per selected cluster, in order. *)
Theorem connect_all_one_result_per_cluster os_kill subprocess_run yaml_importable
    (range_start range_size target_port : Z) (cls : list cluster) (w : world) :
  exists rs w', connect_all os_kill subprocess_run yaml_importable
                  range_start range_size target_port cls w = (Ok rs, w')
  /\ length rs = length cls
  /\ map context_name rs = map (fun c => (company c ++ "-" ++ host_alias c)%string) cls
  /\ Forall (fun r => success r = true <-> error r = None) rs.
Proof.
  destruct (connect_all_total os_kill subprocess_run yaml_importable
              range_start range_size target_port cls w) as (rs & w' & H1 & H2 & H3).
  exists rs, w'. split; [exact H1|]. split; [|auto].
  rewrite <- (length_map context_name rs), H2, length_map. reflexivity.
Qed.

Lemma add_reminders_spec (acc : list string) (cls : list cluster) :
  NoDup acc ->
  NoDup (add_reminders acc cls)
  /\ forall s, s ∈ add_reminders acc cls
               <-> s ∈ acc \/ exists c, c ∈ cls /\ reminder_cmd c = Some s.
Proof.
  revert acc. induction cls as [|c r IH]; intros acc Hnd.
  - split; [exact Hnd|]. intros s. split; [auto|].
    intros [H|(c & Hc & _)]; [exact H|]. apply elem_of_nil in Hc. contradiction.
  - simpl. destruct (reminder_cmd c) as [s0|] eqn:Hrc.
    + destruct (existsb (String.eqb s0) acc) eqn:Hex.
      * destruct (IH acc Hnd) as [Hnd' Hmem]. split; [exact Hnd'|].
        intros s. rewrite Hmem. split.
        -- intros [H|(c' & Hc' & Hs)]; [left; exact H|].
           right. exists c'. split; [right; exact Hc'|exact Hs].
        -- intros [H|(c' & Hc' & Hs)]; [left; exact H|].
           apply elem_of_cons in Hc' as [->|Hc'].
           ++ left. rewrite Hrc in Hs. injection Hs as <-.
              apply existsb_exists in Hex as (x & Hx & Heq).
              apply String.eqb_eq in Heq. subst x. apply list_elem_of_In. exact Hx.
           ++ right. exists c'. auto.
      * assert (Hnin : s0 ∉ acc).
        { intros Hin. apply list_elem_of_In in Hin.
          assert (existsb (String.eqb s0) acc = true)
            by (apply existsb_exists; exists s0; split; [exact Hin|apply String.eqb_refl]).
          congruence. }
        assert (Hnd1 : NoDup (acc ++ [s0])).
        { apply NoDup_app. split; [exact Hnd|]. split.
          - intros x Hx Hx'. apply list_elem_of_singleton in Hx'. subst. contradiction.
          - apply NoDup_singleton. }
        destruct (IH (acc ++ [s0]) Hnd1) as [Hnd' Hmem]. split; [exact Hnd'|].
        intros s. rewrite Hmem, elem_of_app, list_elem_of_singleton. split.
        -- intros [[H| ->]|(c' & Hc' & Hs)]; [left; exact H| |].
           ++ right. exists c. split; [left|]; auto.
           ++ right. exists c'. split; [right; exact Hc'|exact Hs].
        -- intros [H|(c' & Hc' & Hs)]; [left; left; exact H|].
           apply elem_of_cons in Hc' as [->|Hc'].
           ++ left. right. congruence.
           ++ right. exists c'. auto.
    + destruct (IH acc Hnd) as [Hnd' Hmem]. split; [exact Hnd'|].
      intros s. rewrite Hmem. split.
      * intros [H|(c' & Hc' & Hs)]; [left; exact H|].
        right. exists c'. split; [right; exact Hc'|exact Hs].
      * intros [H|(c' & Hc' & Hs)]; [left; exact H|].
        apply elem_of_cons in Hc' as [->|Hc']; [congruence|].
        right. exists c'. auto.
Qed.

(** X9: the reminders [main] prints are the distinct reminder commands of the
    successfully connected clusters. *)
Theorem main_connect_reminders os_kill subprocess_run yaml_importable
    (range_start range_size target_port : Z) (selected : list cluster)
    (w w' : world) (results : list conn_result) (first : string) (ok : bool)
    (reminders : list string)
    (Hmain : main_connect os_kill subprocess_run yaml_importable
               range_start range_size target_port selected w
             = (Ok (Connected results first ok reminders), w')) :
  NoDup reminders
  /\ forall s, s ∈ reminders <->
       exists c r, (c, r) ∈ combine selected results /\ success r = true
                   /\ reminder_cmd c = Some s.
Proof.
  unfold main_connect, bind in Hmain.
  destruct (connect_all_total os_kill subprocess_run yaml_importable
              range_start range_size target_port selected w)
    as (rs & w1 & Hc & _ & _).
  rewrite Hc in Hmain.
  destruct (filter _ (combine selected rs)) as [|[c r] tl] eqn:Hf;
    [unfold ret in Hmain; congruence|].
  unfold set_current_context, bind, run in Hmain.
  destruct (subprocess_run (use_context_cmd (context_name r))) as [rc o e|e];
    unfold ret, raise in Hmain; [|congruence].
  assert (Hrem : reminders = add_reminders [] (map fst ((c, r) :: tl))) by congruence.
  assert (Hres : results = rs) by congruence. subst results.
  rewrite Hrem, <- Hf.
  destruct (add_reminders_spec [] (map fst (filter (fun p => success (snd p) = true)
                                          (combine selected rs))) (NoDup_nil_2 (A:=string)))
    as [Hnd Hmem].
  split; [exact Hnd|]. intros s. rewrite Hmem. split.
  - intros [H|(c' & Hc' & Hs)]; [apply elem_of_nil in H; contradiction|].
    apply list_elem_of_In, in_map_iff in Hc' as ([c'' r'] & Hfst & Hin).
    simpl in Hfst. subst c''. apply list_elem_of_In, list_elem_of_filter in Hin as [Hsucc Hin].
    exists c', r'. auto.
  - intros (c' & r' & Hin & Hsucc & Hs). right. exists c'. split; [|exact Hs].
    apply list_elem_of_In, in_map_iff. exists (c', r'). split; [reflexivity|].
    apply list_elem_of_In, list_elem_of_filter. auto.
Qed.

Lemma connect_all_length os_kill subprocess_run yaml_importable
    (range_start range_size target_port : Z) (cls : list cluster) (w w1 : world)
    (results : list conn_result) :
  connect_all os_kill subprocess_run yaml_importable
    range_start range_size target_port cls w = (Ok results, w1) ->
  length results = length cls.
Proof.
  intros Hc.
  destruct (connect_all_total os_kill subprocess_run yaml_importable
              range_start range_size target_port cls w) as (rs & w' & H1 & H2 & _).
  rewrite Hc in H1. injection H1 as -> _.
  rewrite <- (length_map context_name rs), H2, length_map. reflexivity.
Qed.

Lemma filter_combine_failed (cs : list cluster) (pre : list conn_result) :
  Forall (fun r => success r = false) pre ->
  filter (fun p : cluster * conn_result => success p.2 = true) (combine cs pre) = [].
Proof.
  revert cs. induction pre as [|r pre IH]; intros cs Hf; destruct cs as [|c cs];
    try reflexivity.
  inversion Hf as [|? ? Hr Hpre]; subst. simpl.
  rewrite filter_cons_False by (simpl; rewrite Hr; discriminate). apply IH. exact Hpre.
Qed.

Lemma combine_split_at {A B} (cs : list A) (pre post : list B) (r : B) :
  length cs = length (pre ++ r :: post) ->
  exists cs1 c cs2, cs = cs1 ++ c :: cs2
    /\ combine cs (pre ++ r :: post) = combine cs1 pre ++ (c, r) :: combine cs2 post.
Proof.
  revert cs. induction pre as [|x pre IH]; intros cs Hl; destruct cs as [|c cs];
    try discriminate.
  - exists [], c, cs. split; reflexivity.
  - simpl in Hl. injection Hl as Hl.
    destruct (IH cs Hl) as (cs1 & c' & cs2 & -> & Heq).
    exists (c :: cs1), c', cs2. split; [reflexivity|]. simpl. rewrite Heq. reflexivity.
Qed.

Lemma main_connect_after os_kill subprocess_run yaml_importable
    (range_start range_size target_port : Z) (selected : list cluster)
    (w w1 : world) (results : list conn_result) :
  connect_all os_kill subprocess_run yaml_importable
    range_start range_size target_port selected w = (Ok results, w1) ->
  main_connect os_kill subprocess_run yaml_importable
    range_start range_size target_port selected w
  = (match filter (fun p => success (snd p) = true) (combine selected results) with
     | [] => ret (NoneConnected results)
     | (_, r) :: _ =>
         ok <- set_current_context subprocess_run (context_name r) ;;
         ret (Connected results (context_name r) ok
                (add_reminders [] (map fst (filter (fun p => success (snd p) = true)
                                              (combine selected results)))))
     end) w1.
Proof. intros Hc. unfold main_connect, bind at 1. rewrite Hc. reflexivity. Qed.

(** X10: [main] exits when no cluster connected, and otherwise switches kubectl to
    the context of the first successful result. *)
Theorem main_connect_first_success os_kill subprocess_run yaml_importable
    (range_start range_size target_port : Z) (selected : list cluster)
    (w w1 : world) (results : list conn_result)
    (Hc : connect_all os_kill subprocess_run yaml_importable
            range_start range_size target_port selected w = (Ok results, w1)) :
  (Forall (fun r => success r = false) results ->
   main_connect os_kill subprocess_run yaml_importable
     range_start range_size target_port selected w = (Ok (NoneConnected results), w1))
  /\ (forall pre r post, results = pre ++ r :: post ->
      Forall (fun r => success r = false) pre -> success r = true ->
      let m := main_connect os_kill subprocess_run yaml_importable
                 range_start range_size target_port selected w in
      snd m = log_command w1 (use_context_cmd (context_name r))
      /\ match subprocess_run (use_context_cmd (context_name r)) with
         | Completed rc _ _ =>
             exists rem, fst m = Ok (Connected results (context_name r) (rc =? 0) rem)
         | Raised e => fst m = Err e
         end).
Proof.
  pose proof (connect_all_length _ _ _ _ _ _ _ _ _ _ Hc) as Hlen.
  cbv zeta. rewrite (main_connect_after _ _ _ _ _ _ _ _ _ _ Hc). split.
  - intros Hall. rewrite (filter_combine_failed selected results Hall). reflexivity.
  - intros pre r post -> Hpre Hr.
    destruct (combine_split_at selected pre post r (eq_sym Hlen))
      as (cs1 & c & cs2 & _ & Hcomb).
    rewrite Hcomb, filter_app, (filter_combine_failed cs1 pre Hpre).
    simpl. rewrite filter_cons_True by exact Hr. simpl.
    unfold set_current_context, bind, run.
    destruct (subprocess_run (use_context_cmd (context_name r))) as [rc o e|e];
      simpl; split; try reflexivity.
    eexists. reflexivity.
Qed.

Lemma setup_tunnel_spawn_eq os_kill subprocess_run (target_port : Z)
    (cl : cluster) (ctx ip : string) (port : Z) (w : world) :
  pid_files w !! ctx = None ->
  setup_tunnel os_kill subprocess_run target_port cl ctx port ip w
  = (pid <- create_tunnel subprocess_run (host_alias cl) ip port target_port ;;
     save_tunnel_pid ctx pid ;; ret pid) w.
Proof.
  intros Habs. unfold setup_tunnel at 1, bind at 1.
  rewrite is_tunnel_running_eq, Habs. reflexivity.
Qed.

Lemma setup_tunnel_ssh_error os_kill subprocess_run (target_port : Z)
    (cl : cluster) (ctx ip : string) (port : Z) (w : world) :
  pid_files w !! ctx = None ->
  setup_tunnel os_kill subprocess_run target_port cl ctx port ip w
  = match subprocess_run (ssh_tunnel_cmd (host_alias cl) ip port target_port) with
    | Completed rc _ err =>
        if rc =? 0
        then setup_tunnel os_kill subprocess_run target_port cl ctx port ip w
        else (Err (RuntimeError ("Failed to create SSH tunnel: " ++ err)),
              log_command w (ssh_tunnel_cmd (host_alias cl) ip port target_port))
    | Raised e =>
        (Err e, log_command w (ssh_tunnel_cmd (host_alias cl) ip port target_port))
    end.
Proof.
  intros Habs.
  destruct (subprocess_run (ssh_tunnel_cmd (host_alias cl) ip port target_port))
    as [rc out err|e] eqn:Hssh.
  - destruct (rc =? 0) eqn:Hrc; [reflexivity|].
    rewrite setup_tunnel_spawn_eq by exact Habs.
    unfold create_tunnel, run, bind, raise. rewrite Hssh, Hrc. reflexivity.
  - rewrite setup_tunnel_spawn_eq by exact Habs.
    unfold create_tunnel, run, bind. rewrite Hssh. reflexivity.
Qed.

(** X11: with no tunnel recorded, a failing ssh command makes [connect_cluster]
    return a failure with the port and IP, logging only the ssh command. *)
Theorem connect_cluster_ssh_failure os_kill subprocess_run
    (yaml_importable : bool) (range_start range_size target_port : Z)
    (cl : cluster) (w : world)
    (Habsent : pid_files w !! (company cl ++ "-" ++ host_alias cl)%string = None) :
  let ctx := (company cl ++ "-" ++ host_alias cl)%string in
  let port := get_unique_port ctx range_start range_size in
  let ssh := ssh_tunnel_cmd (host_alias cl) (cluster_internal_ip cl) port target_port in
  let failed e := (Ok (mk_conn_result false ctx (Some port)
                        (Some (cluster_internal_ip cl)) None (Some e)),
                   log_command w ssh) in
  match subprocess_run ssh with
  | Completed rc _ err =>
      rc <> 0 ->
      connect_cluster os_kill subprocess_run yaml_importable range_start
        range_size target_port cl w
      = failed (RuntimeError ("Failed to create SSH tunnel: " ++ err))
  | Raised e =>
      connect_cluster os_kill subprocess_run yaml_importable range_start
        range_size target_port cl w = failed e
  end.
Proof.
  intros ctx port ssh failed.
  rewrite connect_cluster_unfold. fold ctx port.
  rewrite (setup_tunnel_ssh_error os_kill subprocess_run target_port cl ctx
             (cluster_internal_ip cl) port w Habsent).
  fold ssh.
  destruct (subprocess_run ssh) as [rc out err|e]; [|reflexivity].
  intros Hrc. apply Z.eqb_neq in Hrc. rewrite Hrc. reflexivity.
Qed.

(** X12: when no tunnel is running for the context (no [.pid] file, or a stale
    or unparseable one that [is_tunnel_running] deletes), ssh succeeds and pgrep
    finds a live pid, [connect_cluster] records it and succeeds; a second call
    reuses the tunnel without running anything. *)
Theorem connect_cluster_spawn_records_pid os_kill subprocess_run
    (yaml_importable : bool) (range_start range_size target_port : Z)
    (cl : cluster) (w : world) (out err : string) (frc : Z) (fout ferr : string)
    (p : Z)
    (Hstopped : fst (is_tunnel_running os_kill
                       (company cl ++ "-" ++ host_alias cl)%string w) = Ok false)
    (Hssh : subprocess_run
              (ssh_tunnel_cmd (host_alias cl) (cluster_internal_ip cl)
                 (get_unique_port (company cl ++ "-" ++ host_alias cl)
                    range_start range_size) target_port)
            = Completed 0 out err)
    (Hpgrep : subprocess_run
                (pgrep_tunnel_cmd (cluster_internal_ip cl)
                   (get_unique_port (company cl ++ "-" ++ host_alias cl)
                      range_start range_size) target_port)
              = Completed frc fout ferr)
    (Hfound : found frc fout = true)
    (Hpid : parse_int (first_word (strip fout)) = Some p)
    (Hp : p <> 0)
    (Halive : os_kill p 0 = None) :
  let ctx := (company cl ++ "-" ++ host_alias cl)%string in
  let connect := connect_cluster os_kill subprocess_run yaml_importable
                   range_start range_size target_port cl in
  let expected := mk_conn_result true ctx
                    (Some (get_unique_port ctx range_start range_size))
                    (Some (cluster_internal_ip cl)) (Some p) None in
  let '(r1, w1) := connect w in
  let '(r2, w2) := connect w1 in
  r1 = Ok expected
  /\ pid_files w1 !! ctx = Some (z_to_dec p)
  /\ r2 = Ok expected /\ pid_files w2 = pid_files w1 /\ proc_log w2 = proc_log w1.
Proof.
  intros ctx connect expected. unfold connect.
  rewrite connect_cluster_unfold. fold ctx. fold ctx in Hssh, Hpgrep, Hstopped.
  destruct (is_tunnel_running os_kill ctx w) as [r w0] eqn:Hr.
  simpl in Hstopped. subst r.
  destruct (is_tunnel_running_false os_kill ctx w w0 Hr) as (Habsent & _ & _).
  rewrite (setup_tunnel_not_running os_kill subprocess_run target_port cl
             ctx _ _ w w0 Hr).
  rewrite setup_tunnel_spawn_eq by exact Habsent.
  unfold create_tunnel, run, bind at 1 2. rewrite Hssh. simpl.
  unfold bind at 1 2. rewrite Hpgrep. simpl. rewrite Hfound.
  unfold py_int, bind. rewrite Hpid. unfold ret.
  set (w1 := snd (save_tunnel_pid ctx (Some p)
                    (log_command (log_command w0
                       (ssh_tunnel_cmd (host_alias cl) (cluster_internal_ip cl)
                          (get_unique_port ctx range_start range_size) target_port))
                       (pgrep_tunnel_cmd (cluster_internal_ip cl)
                          (get_unique_port ctx range_start range_size) target_port)))).
  change (save_tunnel_pid ctx (Some p) _) with (Ok tt, w1). cbv beta iota.
  assert (Hrec : pid_files w1 !! ctx = Some (z_to_dec p)).
  { unfold w1, save_tunnel_pid, save_tunnel_pid_ops, run_ops, pid_truthy.
    apply Z.eqb_neq in Hp. rewrite Hp. simpl. apply lookup_insert_eq. }
  destruct (save_cluster_network_pid_files yaml_importable cl ctx
              (cluster_internal_ip cl) w1) as (w2 & Hs & Hpf & Hlog).
  rewrite Hs. rewrite <- Hpf in Hrec.
  destruct (connect_cluster_live os_kill subprocess_run yaml_importable
              range_start range_size target_port cl w2 (z_to_dec p) p Hrec
              (z_to_dec_parse p) Halive) as (w3 & H3 & Hpf3 & Hlog3).
  fold ctx in H3. rewrite H3. auto.
Qed.

Lemma save_cluster_network_file (cl : cluster) (ctx ip : string) (w : world) :
  str_truthy (network_type cl) || needs_vpn cl = true ->
  network_files (snd (save_cluster_network true cl ctx ip w)) !! ctx
  = Some (NetDoc
      (opt_entry "network_type" (network_type cl)
       ++ opt_entry "network_range" (network_range cl)
       ++ opt_entry "sshuttle_command"
            (if bool_decide (network_type cl = Some "sshuttle"%string)
             then Some ("sshuttle -v -r helio@100.64.5.10 "
                        ++ opt_py_str (network_range cl))%string
             else None)
       ++ [("needs_vpn", YBool (needs_vpn cl))]
       ++ opt_entry "internal_ip" (Some ip))).
Proof.
  intros Hreq. unfold save_cluster_network. rewrite Hreq.
  unfold save_network_metadata, save_network_metadata_ops, run_ops.
  apply orb_true_iff in Hreq.
  replace (negb (str_truthy (network_type cl)) && negb (needs_vpn cl)) with false
    by (destruct Hreq as [-> | ->]; [reflexivity|symmetry; apply andb_false_r]).
  simpl. apply lookup_insert_eq.
Qed.

(** X13: the network metadata [connect_cluster] saves makes
    [validate_context_network] ask for the VPN, or for sshuttle when it is not running. *)
Theorem saved_network_metadata_validates subprocess_run (cl : cluster)
    (ctx ip : string) (w : world) :
  let w1 := snd (save_cluster_network true cl ctx ip w) in
  (needs_vpn cl = true ->
   validate_context_network subprocess_run true ctx w1
   = (Ok (false, Some "This cluster requires VPN connection"%string), w1))
  /\ (forall r, needs_vpn cl = false -> network_type cl = Some "sshuttle"%string ->
      network_range cl = Some r -> no_sshuttle_process subprocess_run r ->
      exists w2, validate_context_network subprocess_run true ctx w1
      = (Ok (false, Some ("This cluster requires sshuttle for " ++ r ++ nl
                          ++ "  Run: sshuttle -v -r helio@100.64.5.10 " ++ r)%string),
         w2)).
Proof.
  intros w1. split.
  - intros Hvpn.
    assert (Hreq : str_truthy (network_type cl) || needs_vpn cl = true)
      by (rewrite Hvpn; apply orb_true_r).
    pose proof (save_cluster_network_file cl ctx ip w Hreq) as Hf. fold w1 in Hf.
    apply (validate_context_network_vpn subprocess_run ctx _ w1 Hf).
    rewrite Hvpn. destruct cl as [co ha cip [nt|] [nr|] vpn]; simpl in *; subst;
      try destruct (bool_decide _); reflexivity.
  - intros r Hvpn Hnt Hnr Hno.
    assert (Hreq : str_truthy (network_type cl) || needs_vpn cl = true)
      by (rewrite Hnt; reflexivity).
    pose proof (save_cluster_network_file cl ctx ip w Hreq) as Hf. fold w1 in Hf.
    rewrite Hvpn, Hnt, Hnr, bool_decide_true in Hf by reflexivity.
    simpl in Hf.
    destruct (check_sshuttle_inactive subprocess_run r w1 Hno) as (w2 & Hchk).
    exists w2. unfold validate_context_network, get_network_metadata, bind.
    rewrite Hf. simpl. rewrite Hchk. reflexivity.
Qed.

(** X14: with no usable network metadata, [validate_context_network] accepts the
    context without running anything. *)
Theorem validate_context_network_no_metadata subprocess_run (yaml_importable : bool)
    (ctx : string) (w : world)
    (Hnone : network_files w !! ctx = None \/ network_files w !! ctx = Some NetEmpty
             \/ network_files w !! ctx = Some NetBroken
             \/ network_files w !! ctx = Some (NetDoc [])
             \/ yaml_importable = false) :
  validate_context_network subprocess_run yaml_importable ctx w = (Ok (true, None), w).
Proof.
  unfold validate_context_network, get_network_metadata, bind.
  destruct Hnone as [H|[H|[H|[H| ->]]]]; try (rewrite H; destruct yaml_importable; reflexivity).
  destruct (network_files w !! ctx); reflexivity.
Qed.

(** X15: [check_sshuttle_active] answers true when the range probe finds sshuttle,
    true when only the generic probe does, and false on a timeout or a missing pgrep. *)
Theorem check_sshuttle_active_generic_probe subprocess_run (network_range : string)
    (w : world) :
  (forall rc1 out1 err1 rc2 out2 err2,
     subprocess_run (sshuttle_range_cmd network_range) = Completed rc1 out1 err1 ->
     subprocess_run sshuttle_any_cmd = Completed rc2 out2 err2 ->
     found rc2 out2 = true ->
     fst (check_sshuttle_active subprocess_run network_range w) = Ok true)
  /\ (forall rc1 out1 err1,
     subprocess_run (sshuttle_range_cmd network_range) = Completed rc1 out1 err1 ->
     found rc1 out1 = true ->
     check_sshuttle_active subprocess_run network_range w
     = (Ok true, log_command w (sshuttle_range_cmd network_range)))
  /\ (forall e, e = TimeoutExpired \/ e = FileNotFoundError ->
     subprocess_run (sshuttle_range_cmd network_range) = Raised e ->
     check_sshuttle_active subprocess_run network_range w
     = (Ok false, log_command w (sshuttle_range_cmd network_range))).
Proof.
  unfold check_sshuttle_active, try_except, run, bind, ret. split; [|split].
  - intros rc1 out1 err1 rc2 out2 err2 H1 H2 Hf. rewrite H1.
    destruct (found rc1 out1); [reflexivity|]. rewrite H2, Hf. reflexivity.
  - intros rc1 out1 err1 H1 Hf. rewrite H1, Hf. reflexivity.
  - intros e He H1. rewrite H1. destruct He as [-> | ->]; reflexivity.
Qed.

Lemma group_clusters_aux_eq (cls vpn sshuttle direct : list cluster) :
  group_clusters_aux cls vpn sshuttle direct
  = (vpn ++ filter (fun c => needs_vpn c = true) cls,
     sshuttle ++ filter (fun c => needs_vpn c = false /\ is_sshuttle c) cls,
     direct ++ filter (fun c => needs_vpn c = false /\ ~ is_sshuttle c) cls).
Proof.
  revert vpn sshuttle direct.
  induction cls as [|c r IH]; intros vpn sshuttle direct.
  - simpl. rewrite !app_nil_r. reflexivity.
  - simpl. destruct (needs_vpn c) eqn:Hv.
    + rewrite IH, filter_cons_True, filter_cons_False, filter_cons_False
        by (try intros [? ?]; congruence).
      rewrite <- !app_assoc. reflexivity.
    + destruct (bool_decide (network_type c = Some "sshuttle"%string)) eqn:Hs.
      * apply bool_decide_eq_true in Hs.
        rewrite IH, filter_cons_False, filter_cons_True, filter_cons_False
          by (unfold is_sshuttle; try intros [? ?]; try split; try congruence; tauto).
        rewrite <- !app_assoc. reflexivity.
      * apply bool_decide_eq_false in Hs.
        rewrite IH, filter_cons_False, filter_cons_False, filter_cons_True
          by (unfold is_sshuttle; try intros [? ?]; try split; try congruence; tauto).
        rewrite <- !app_assoc. reflexivity.
Qed.

(** X16: [show_network_warnings] splits the selected clusters into VPN, sshuttle and
    direct ones, in order, and each cluster falls in exactly one group. *)
Theorem group_clusters_partition (cls : list cluster) :
  let '(vpn, sshuttle, direct) := group_clusters cls in
  vpn = filter (fun c => needs_vpn c = true) cls
  /\ sshuttle = filter (fun c => needs_vpn c = false /\ is_sshuttle c) cls
  /\ direct = filter (fun c => needs_vpn c = false /\ ~ is_sshuttle c) cls
  /\ vpn ++ sshuttle ++ direct ≡ₚ cls.
Proof.
  unfold group_clusters. rewrite group_clusters_aux_eq. simpl.
  split; [reflexivity|]. split; [reflexivity|]. split; [reflexivity|].
  induction cls as [|c r IH]; [reflexivity|].
  destruct (needs_vpn c) eqn:Hv.
  - rewrite filter_cons_True, filter_cons_False, filter_cons_False
      by (try intros [? ?]; congruence).
    simpl. f_equiv. exact IH.
  - destruct (decide (is_sshuttle c)) as [Hs|Hs].
    + rewrite filter_cons_False, filter_cons_True, filter_cons_False
        by (try intros [? ?]; try split; try congruence; tauto).
      simpl. rewrite <- Permutation_middle. f_equiv. exact IH.
    + rewrite filter_cons_False, filter_cons_False, filter_cons_True
        by (try intros [? ?]; try split; try congruence; tauto).
      simpl. rewrite !app_assoc, <- Permutation_middle, <- !app_assoc.
      f_equiv. exact IH.
Qed.

Lemma string_leb_trans (a b c : string) :
  String.leb a b = true -> String.leb b c = true -> String.leb a c = true.
Proof.
  revert b c. induction a as [|x a IH]; intros [|y b] [|z c];
    unfold String.leb; simpl; try discriminate; auto.
  unfold Ascii.compare.
  generalize (N_of_ascii x) (N_of_ascii y) (N_of_ascii z). intros nx ny nz.
  destruct (N.compare_spec nx ny), (N.compare_spec ny nz), (N.compare_spec nx nz);
    try lia; try discriminate; auto.
  apply IH.
Qed.

(** X17: the sshuttle ranges [show_network_warnings] lists are sorted, distinct,
    and exactly the truthy ranges of the sshuttle clusters. *)
Theorem sshuttle_ranges_sorted_unique (sshuttle_required : list cluster) :
  let l := sshuttle_ranges sshuttle_required in
  StronglySorted string_le l /\ NoDup l
  /\ forall r, r ∈ l <-> exists c, c ∈ sshuttle_required /\ truthy_range c = Some r.
Proof.
  intros l.
  assert (Hperm : l ≡ₚ remove_dups (omap truthy_range sshuttle_required))
    by apply merge_sort_Permutation.
  assert (Hsort : Sorted string_le l)
    by (apply Sorted_merge_sort; intros a b; apply String.leb_total).
  assert (Hnd : NoDup l)
    by (rewrite Hperm; apply NoDup_remove_dups).
  split; [|split; [exact Hnd|]].
  - apply Sorted_StronglySorted; [|exact Hsort].
    intros a b c Hab Hbc. unfold string_le in *.
    eapply string_leb_trans; eassumption.
  - intros r. rewrite Hperm, elem_of_remove_dups, list_elem_of_omap. reflexivity.
Qed.

Lemma py_eqb_refl (v : yval) : yval_truthy v = true -> py_eqb v v = true.
Proof.
  destruct v as [|b|z|s]; simpl; intros H; try discriminate.
  - apply Bool.eqb_reflx.
  - apply Z.eqb_refl.
  - apply String.eqb_refl.
Qed.

Lemma shown_requirements_spec (reqs : list ydict) (shown : list yval) :
  let out := shown_requirements reqs shown in
  Forall (fun x => yval_truthy x = true) out
  /\ (forall pre x post, out = pre ++ x :: post ->
      forall y, y ∈ pre ++ shown -> py_eqb x y = false)
  /\ (forall x, x ∈ out -> exists meta, meta ∈ reqs
                                       /\ dict_get meta "sshuttle_command" = x)
  /\ (forall meta, meta ∈ reqs -> yval_truthy (dict_get meta "sshuttle_command") = true ->
      exists y, y ∈ out ++ shown /\ py_eqb (dict_get meta "sshuttle_command") y = true).
Proof.
  revert shown. induction reqs as [|meta r IH]; intros shown out.
  - split; [constructor|]. split.
    + intros pre x post Hout. destruct pre; discriminate.
    + split; [intros x Hx; apply elem_of_nil in Hx; contradiction|].
      intros meta Hm. apply elem_of_nil in Hm. contradiction.
  - unfold out. simpl.
    set (cmd := dict_get meta "sshuttle_command").
    destruct (yval_truthy cmd && negb (existsb (py_eqb cmd) shown)) eqn:Hp.
    + apply andb_prop in Hp as [Ht Hn]. apply negb_true_iff in Hn.
      destruct (IH (cmd :: shown)) as (Hf & Hd & Hsrc & Hcov).
      split; [constructor; assumption|]. split; [|split].
      * intros [|z pre] x post Hout y Hy.
        -- simpl in Hout. injection Hout as Hx _. subst x.
           destruct (py_eqb cmd y) eqn:He; [|reflexivity].
           assert (existsb (py_eqb cmd) shown = true)
             by (apply existsb_exists; exists y; split;
                 [apply list_elem_of_In; exact Hy|exact He]).
           congruence.
        -- simpl in Hout. injection Hout as -> Hout.
           apply (Hd pre x post Hout).
           apply elem_of_app. apply elem_of_cons in Hy as [->|Hy].
           ++ right. left.
           ++ apply elem_of_app in Hy as [Hy|Hy]; [left; exact Hy|right; right; exact Hy].
      * intros x Hx. apply elem_of_cons in Hx as [->|Hx].
        -- exists meta. split; [left|reflexivity].
        -- destruct (Hsrc x Hx) as (m & Hm & Hmx). exists m. split; [right; exact Hm|exact Hmx].
      * intros m Hm Htm. apply elem_of_cons in Hm as [->|Hm].
        -- exists cmd. split; [left|apply py_eqb_refl; exact Ht].
        -- destruct (Hcov m Hm Htm) as (y & Hy & He). exists y. split; [|exact He].
           apply elem_of_app in Hy as [Hy|Hy].
           ++ right. apply elem_of_app. left. exact Hy.
           ++ apply elem_of_cons in Hy as [->|Hy]; [left|].
              right. apply elem_of_app. right. exact Hy.
    + destruct (IH shown) as (Hf & Hd & Hsrc & Hcov).
      split; [exact Hf|]. split; [exact Hd|]. split.
      * intros x Hx. destruct (Hsrc x Hx) as (m & Hm & Hmx).
        exists m. split; [right; exact Hm|exact Hmx].
      * intros m Hm Htm. apply elem_of_cons in Hm as [->|Hm]; [|exact (Hcov m Hm Htm)].
        fold cmd in Htm. rewrite Htm in Hp. simpl in Hp.
        apply negb_false_iff, existsb_exists in Hp as (y & Hy & He).
        exists y. split; [|exact He]. apply elem_of_app. right.
        apply list_elem_of_In. exact Hy.
Qed.

(** X18: the sshuttle commands [show_status] lists are truthy, distinct as Python
    compares them, and are those of the running sshuttle contexts. *)
Theorem status_requirement_commands_spec (contexts : list ctx_status) :
  let l := status_requirement_commands contexts in
  Forall (fun x => yval_truthy x = true) l
  /\ (forall pre x post, l = pre ++ x :: post ->
      forall y, y ∈ pre -> py_eqb x y = false)
  /\ (forall x, x ∈ l -> exists c meta, c ∈ contexts /\ tunnel_running c = true
        /\ network_metadata c = Some meta
        /\ yval_eqb (dict_get meta "network_type") (YStr "sshuttle") = true
        /\ dict_get meta "sshuttle_command" = x)
  /\ (forall c meta, c ∈ contexts -> requirement_of c = Some meta ->
      yval_truthy (dict_get meta "sshuttle_command") = true ->
      exists y, y ∈ l /\ py_eqb (dict_get meta "sshuttle_command") y = true).
Proof.
  intros l. unfold l, status_requirement_commands.
  destruct (shown_requirements_spec (omap requirement_of contexts) [])
    as (Hf & Hd & Hsrc & Hcov).
  split; [exact Hf|]. split; [|split].
  - intros pre x post Hl y Hy. apply (Hd pre x post Hl). rewrite app_nil_r. exact Hy.
  - intros x Hx. destruct (Hsrc x Hx) as (meta & Hm & Hmx).
    apply list_elem_of_omap in Hm as (c & Hc & Hreq).
    exists c, meta. split; [exact Hc|].
    unfold requirement_of in Hreq.
    destruct (tunnel_running c); [|discriminate].
    destruct (network_metadata c) as [[|kv d]|]; try discriminate.
    destruct (yval_eqb (dict_get (kv :: d) "network_type") (YStr "sshuttle")) eqn:He;
      [|discriminate].
    injection Hreq as <-. auto.
  - intros c meta Hc Hreq Ht.
    destruct (Hcov meta) as (y & Hy & He).
    + apply list_elem_of_omap. exists c. auto.
    + exact Ht.
    + exists y. rewrite app_nil_r in Hy. auto.
Qed.

Lemma ylookup_cons {V} (k : string) (v : V) (m : list (string * V)) (h : string) :
  ylookup ((k, v) :: m) h = if String.eqb k h then Some v else ylookup m h.
Proof. unfold ylookup. simpl. destruct (String.eqb k h); reflexivity. Qed.

Lemma ylookup_dict_set {V} (d : list (string * V)) (k : string) (v : V) (h : string) :
  ylookup (dict_set d k v) h = if String.eqb k h then Some v else ylookup d h.
Proof.
  induction d as [|[k' v'] r IH]; simpl.
  - rewrite ylookup_cons. reflexivity.
  - destruct (String.eqb_spec k' k) as [->|Hne].
    + rewrite !ylookup_cons. destruct (String.eqb k h); reflexivity.
    + rewrite !ylookup_cons, IH.
      destruct (String.eqb_spec k h) as [->|]; [|reflexivity].
      destruct (String.eqb_spec k' h); [congruence|reflexivity].
Qed.

Lemma dict_set_keys {V} (d : list (string * V)) (k : string) (v : V) :
  NoDup (map fst d) ->
  NoDup (map fst (dict_set d k v))
  /\ forall x, x ∈ map fst (dict_set d k v) <-> x = k \/ x ∈ map fst d.
Proof.
  induction d as [|[k' v'] r IH]; intros Hnd; simpl.
  - split; [apply NoDup_singleton|]. intros x.
    rewrite list_elem_of_singleton. split; [auto|]. intros [H|H]; [exact H|].
    apply elem_of_nil in H. contradiction.
  - apply NoDup_cons in Hnd as [Hk' Hnd].
    destruct (String.eqb_spec k' k) as [->|Hne]; simpl.
    + split; [apply NoDup_cons; auto|]. intros x. rewrite elem_of_cons.
      split; [intros [H|H]; auto|]. intros [H|[H|H]]; auto.
    + destruct (IH Hnd) as [Hnd' Hmem]. split.
      * apply NoDup_cons. split; [|exact Hnd'].
        rewrite Hmem. intros [H|H]; [congruence|contradiction].
      * intros x. rewrite !elem_of_cons, Hmem. tauto.
Qed.

Lemma ylookup_notin {V} (m : list (string * V)) (h : string) :
  h ∉ map fst m -> ylookup m h = None.
Proof.
  induction m as [|[k v] r IH]; intros Hn; [reflexivity|].
  rewrite ylookup_cons. simpl in Hn. rewrite elem_of_cons in Hn.
  destruct (String.eqb_spec k h); [subst; tauto|]. apply IH. tauto.
Qed.

Lemma add_hosts_lookup (g : string) (hs : list (string * yaml))
    (acc : list (string * host_entry)) (h : string) :
  NoDup (map fst hs) ->
  ylookup (add_hosts g hs acc) h
  = match ylookup hs h with
    | Some cfg => Some (host_entry_of g cfg)
    | None => ylookup acc h
    end.
Proof.
  unfold add_hosts. revert acc.
  induction hs as [|[k cfg] r IH]; intros acc Hnd; [reflexivity|].
  simpl. apply NoDup_cons in Hnd as [Hk Hnd].
  rewrite IH by exact Hnd. rewrite ylookup_cons, ylookup_dict_set.
  destruct (String.eqb_spec k h) as [->|]; [|reflexivity].
  rewrite ylookup_notin by exact Hk. reflexivity.
Qed.

Lemma add_hosts_nodup (g : string) (hs : list (string * yaml))
    (acc : list (string * host_entry)) :
  NoDup (map fst acc) -> NoDup (map fst (add_hosts g hs acc)).
Proof.
  unfold add_hosts. revert acc.
  induction hs as [|hc r IH]; intros acc Hnd; [exact Hnd|].
  simpl. apply IH. apply dict_set_keys. exact Hnd.
Qed.

Lemma add_group_lookup (acc : list (string * host_entry)) (gd : string * yaml)
    (h : string) :
  (forall hs, group_hosts (snd gd) = Some hs -> NoDup (map fst hs)) ->
  ylookup (add_group acc gd) h
  = match group_entry gd h with Some e => Some e | None => ylookup acc h end.
Proof.
  intros Hnd. unfold add_group, group_entry.
  destruct (group_hosts (snd gd)) as [hs|]; [|reflexivity].
  rewrite add_hosts_lookup by (apply Hnd; reflexivity).
  destruct (ylookup hs h); reflexivity.
Qed.

Lemma app_last_split {A} (l : list A) (x : A) (pre : list A) (y : A) (post : list A) :
  l ++ [x] = pre ++ y :: post ->
  (post = [] /\ x = y /\ l = pre)
  \/ exists post', post = post' ++ [x] /\ l = pre ++ y :: post'.
Proof.
  intros H. induction post as [|z post' _] using rev_ind.
  - left. apply app_inj_tail in H as [-> ->]. auto.
  - right. exists post'.
    rewrite app_comm_cons, app_assoc in H. apply app_inj_tail in H as [-> ->]. auto.
Qed.

Lemma fold_add_group_lookup (groups : list (string * yaml))
    (acc : list (string * host_entry)) (h : string) (e : host_entry) :
  (forall gd hs, gd ∈ groups -> group_hosts (snd gd) = Some hs -> NoDup (map fst hs)) ->
  ylookup (fold_left add_group groups acc) h = Some e
  <-> (exists pre gd post, groups = pre ++ gd :: post /\ group_entry gd h = Some e
        /\ forall gd', gd' ∈ post -> group_entry gd' h = None)
      \/ (ylookup acc h = Some e /\ forall gd, gd ∈ groups -> group_entry gd h = None).
Proof.
  induction groups as [|gd groups IH] using rev_ind; intros Hnd.
  - simpl. split; [intros H; right; split; [exact H|]|].
    + intros gd Hgd. apply elem_of_nil in Hgd. contradiction.
    + intros [(pre & gd & post & Heq & _)|[H _]]; [|exact H].
      destruct pre; discriminate.
  - rewrite fold_left_app. simpl.
    rewrite add_group_lookup
      by (intros hs; apply Hnd; apply elem_of_app; right; left).
    assert (Hnd' : forall gd' hs, gd' ∈ groups -> group_hosts (snd gd') = Some hs ->
                   NoDup (map fst hs))
      by (intros gd' hs Hgd; apply Hnd; apply elem_of_app; left; exact Hgd).
    destruct (group_entry gd h) as [e'|] eqn:Hge.
    + split.
      * intros [= <-]. left. exists groups, gd, []. split; [reflexivity|].
        split; [exact Hge|]. intros gd' Hgd'. apply elem_of_nil in Hgd'. contradiction.
      * intros [(pre & gd0 & post & Heq & Hg0 & Hpost)|[_ Hall]].
        -- apply app_last_split in Heq as [(-> & <- & _)|(post' & -> & _)];
             [congruence|].
           rewrite Hpost in Hge; [discriminate|].
           apply elem_of_app. right. left.
        -- rewrite Hall in Hge; [discriminate|]. apply elem_of_app. right. left.
    + rewrite (IH Hnd'). split.
      * intros [(pre & gd0 & post & Heq & Hg0 & Hpost)|[Hacc Hall]].
        -- left. exists pre, gd0, (post ++ [gd]). split; [subst; rewrite <- app_assoc; reflexivity|].
           split; [exact Hg0|]. intros gd' Hgd'.
           apply elem_of_app in Hgd' as [Hgd'|Hgd']; [apply Hpost; exact Hgd'|].
           apply list_elem_of_singleton in Hgd'. subst. exact Hge.
        -- right. split; [exact Hacc|]. intros gd' Hgd'.
           apply elem_of_app in Hgd' as [Hgd'|Hgd']; [apply Hall; exact Hgd'|].
           apply list_elem_of_singleton in Hgd'. subst. exact Hge.
      * intros [(pre & gd0 & post & Heq & Hg0 & Hpost)|[Hacc Hall]].
        -- apply app_last_split in Heq as [(-> & <- & _)|(post' & -> & ->)];
             [congruence|].
           left. exists pre, gd0, post'. split; [reflexivity|]. split; [exact Hg0|].
           intros gd' Hgd'. apply Hpost. apply elem_of_app. left. exact Hgd'.
        -- right. split; [exact Hacc|]. intros gd' Hgd'. apply Hall.
           apply elem_of_app. left. exact Hgd'.
Qed.

Lemma fold_add_group_nodup (groups : list (string * yaml))
    (acc : list (string * host_entry)) :
  NoDup (map fst acc) -> NoDup (map fst (fold_left add_group groups acc)).
Proof.
  revert acc. induction groups as [|gd groups IH]; intros acc Hnd; [exact Hnd|].
  simpl. apply IH. unfold add_group.
  destruct (group_hosts (snd gd)); [apply add_hosts_nodup|]; exact Hnd.
Qed.

(** X19: [extract_hosts_from_inventory] lists each host once, with the group and
    settings of the last group that lists it; a host with no settings gets an
    empty dict. *)
Theorem extract_hosts_last_group_wins (inv a groups : list (string * yaml))
    (Hall : ylookup inv "all" = Some (YamlMap a))
    (Hchildren : ylookup a "children" = Some (YamlMap groups))
    (Hnd : forall gd hs, gd ∈ groups -> group_hosts (snd gd) = Some hs ->
           NoDup (map fst hs)) :
  exists hosts, extract_hosts_from_inventory (YamlMap inv) = PyOk hosts
  /\ NoDup (map fst hosts)
  /\ forall h e, ylookup hosts h = Some e <->
       exists pre gd post hs cfg, groups = pre ++ gd :: post
       /\ group_hosts (snd gd) = Some hs /\ ylookup hs h = Some cfg
       /\ e = mk_host_entry (fst gd) (if yaml_truthy cfg then cfg else YamlMap [])
       /\ forall gd' hs', gd' ∈ post -> group_hosts (snd gd') = Some hs' ->
                          ylookup hs' h = None.
Proof.
  exists (fold_left add_group groups []).
  split; [unfold extract_hosts_from_inventory; simpl; rewrite Hall; simpl;
          rewrite Hchildren; reflexivity|].
  split; [apply fold_add_group_nodup; constructor|].
  intros h e. rewrite (fold_add_group_lookup groups [] h e Hnd). split.
  - intros [(pre & gd & post & Heq & Hg & Hpost)|[H _]]; [|discriminate].
    unfold group_entry in Hg.
    destruct (group_hosts (snd gd)) as [hs|] eqn:Hhs; [|discriminate].
    destruct (ylookup hs h) as [cfg|] eqn:Hcfg; [|discriminate].
    injection Hg as <-. exists pre, gd, post, hs, cfg.
    do 4 (split; [try reflexivity; assumption|]).
    intros gd' hs' Hgd' Hhs'. specialize (Hpost gd' Hgd').
    unfold group_entry in Hpost. rewrite Hhs' in Hpost.
    destruct (ylookup hs' h); [discriminate|reflexivity].
  - intros (pre & gd & post & hs & cfg & Heq & Hhs & Hcfg & -> & Hpost).
    left. exists pre, gd, post. split; [exact Heq|]. split.
    + unfold group_entry. rewrite Hhs, Hcfg. reflexivity.
    + intros gd' Hgd'. unfold group_entry.
      destruct (group_hosts (snd gd')) as [hs'|] eqn:Hhs'; [|reflexivity].
      rewrite (Hpost gd' hs' Hgd' Hhs'). reflexivity.
Qed.

(** X20: [extract_hosts_from_inventory] returns no host for a non-dict inventory,
    no [all] or no [children], raises [AttributeError] on a non-dict [children] and
    [TypeError] on a scalar [all] or a list [all] holding "children". *)
Theorem extract_hosts_from_inventory_edge_cases :
  (forall inv, (forall m, inv <> YamlMap m) -> extract_hosts_from_inventory inv = PyOk [])
  /\ (forall m, ylookup m "all" = None -> extract_hosts_from_inventory (YamlMap m) = PyOk [])
  /\ (forall m, (ylookup m "all" = Some YamlNull
                 \/ (exists b, ylookup m "all" = Some (YamlBool b))
                 \/ (exists z, ylookup m "all" = Some (YamlInt z))) ->
      extract_hosts_from_inventory (YamlMap m) = PyRaise TypeError)
  /\ (forall m a, ylookup m "all" = Some (YamlMap a) -> ylookup a "children" = None ->
      extract_hosts_from_inventory (YamlMap m) = PyOk [])
  /\ (forall m a v, ylookup m "all" = Some (YamlMap a) -> ylookup a "children" = Some v ->
      (forall groups, v <> YamlMap groups) ->
      extract_hosts_from_inventory (YamlMap m) = PyRaise AttributeError)
  /\ (forall m l, ylookup m "all" = Some (YamlSeq l) -> In (YamlStr "children") l ->
      extract_hosts_from_inventory (YamlMap m) = PyRaise TypeError).
Proof.
  unfold extract_hosts_from_inventory. split; [|split; [|split; [|split; [|split]]]].
  - intros inv Hn. destruct inv; try reflexivity. exfalso. eapply Hn. reflexivity.
  - intros m H. rewrite H. reflexivity.
  - intros m [H|[(b & H)|(z & H)]]; rewrite H; reflexivity.
  - intros m a H Hc. rewrite H. simpl. rewrite Hc. reflexivity.
  - intros m a v H Hc Hv. rewrite H. simpl. rewrite Hc.
    destruct v; try reflexivity. exfalso. eapply Hv. reflexivity.
  - intros m l H Hin. rewrite H. simpl.
    replace (existsb _ l) with true; [reflexivity|].
    symmetry. apply existsb_exists. exists (YamlStr "children"). split; [exact Hin|reflexivity].
Qed.


(** ** The theorems at concrete inputs *)

Lemma kill_tunnel_removes_pid_record_witness :
  kill_caught no_such_process ctx_acme acme_world
  /\ (let '(r, w') := kill_tunnel no_such_process ctx_acme acme_world in
      r = Ok tt
      /\ pid_files w' !! ctx_acme = None
      /\ network_files w' = network_files acme_world
      /\ network_files (snd (remove_network_metadata ctx_acme w')) !! ctx_acme = None).
Proof.
  assert (H : kill_caught no_such_process ctx_acme acme_world)
    by (intros text p _ _; reflexivity).
  split; [exact H|].
  exact (kill_tunnel_removes_pid_record no_such_process ctx_acme acme_world H).
Defined.

Lemma connect_cluster_unknown_pid_no_record_witness :
  exists w',
    connect_cluster all_alive ssh_ok_nothing_found true 16443 10000 6443
      acme_cluster garbled_world
    = (Ok (mk_conn_result true (company acme_cluster ++ "-" ++ host_alias acme_cluster)%string
             (Some (get_unique_port
                      (company acme_cluster ++ "-" ++ host_alias acme_cluster)
                      16443 10000))
             (Some (cluster_internal_ip acme_cluster)) None None), w')
    /\ pid_files w' !! (company acme_cluster ++ "-" ++ host_alias acme_cluster)%string
       = None.
Proof.
  apply (connect_cluster_unknown_pid_no_record all_alive ssh_ok_nothing_found
           true 16443 10000 6443 acme_cluster garbled_world "" "" 1 "" "");
    vm_compute; reflexivity.
Defined.

Lemma is_tunnel_running_self_heals_witness :
  let '(r1, w1) := is_tunnel_running no_such_process ctx_acme acme_world in
  r1 = Ok false
  /\ pid_files w1 !! ctx_acme = None
  /\ fst (read_pid_file ctx_acme w1) = Err FileNotFoundError
  /\ is_tunnel_running no_such_process ctx_acme w1 = (Ok false, w1).
Proof.
  apply (is_tunnel_running_self_heals no_such_process ctx_acme "4242" 4242
           acme_world); vm_compute; reflexivity.
Defined.

Lemma save_network_metadata_no_requirement_witness :
  str_truthy None = false
  /\ save_network_metadata true ctx_acme None None None false None empty_world
     = (Ok tt, empty_world)
  /\ fst (validate_context_network ssh_ok_nothing_found true ctx_acme
            (snd (save_network_metadata true ctx_acme None None None false None
                    empty_world)))
     = Ok (true, None).
Proof.
  assert (Hnt : str_truthy None = false) by reflexivity.
  destruct (save_network_metadata_no_requirement ssh_ok_nothing_found true
              ctx_acme None None None None empty_world Hnt)
    as (Hsave & _ & Hread).
  split; [exact Hnt|]. split; [exact Hsave|].
  apply Hread. vm_compute. reflexivity.
Defined.

Lemma validate_context_network_cases_witness :
  validate_context_network ssh_ok_nothing_found true ctx_acme empty_world
    = (Ok (true, None), empty_world)
  /\ (exists msg, fst (validate_context_network ssh_ok_nothing_found true
                         ctx_acme acme_world) = Ok (false, Some msg))
  /\ (exists warning,
        fst (validate_context_network ssh_ok_nothing_found true ctx_acme
               sshuttle_world) = Ok (false, Some warning)
        /\ exists pre post, warning = (pre ++ cidr_90 ++ post)%string).
Proof.
  split; [|split].
  - apply (proj1 (validate_context_network_cases ssh_ok_nothing_found
                    ctx_acme empty_world)).
    vm_compute. reflexivity.
  - apply (proj1 (proj2 (validate_context_network_cases ssh_ok_nothing_found
                           ctx_acme acme_world)) sshuttle_vpn_doc);
      vm_compute; reflexivity.
  - apply (proj2 (proj2 (validate_context_network_cases ssh_ok_nothing_found
                           ctx_acme sshuttle_world))
             [("network_type", YStr "sshuttle"); ("network_range", YStr cidr_90);
              ("needs_vpn", YBool false)] cidr_90); try (vm_compute; reflexivity).
    intros c [-> | ->]; vm_compute; reflexivity.
Defined.

Lemma state_store_writes_in_place_witness :
  (let v := pid_files (after_steps (save_tunnel_pid_ops ctx_acme (Some 4242)) 1
                         acme_world) !! ctx_acme in
   v = pid_files acme_world !! ctx_acme \/ v = Some ""%string
   \/ v = Some (z_to_dec 4242))
  /\ is_tunnel_running no_such_process ctx_acme
       (after_steps (save_tunnel_pid_ops ctx_acme (Some 4242)) 1 acme_world)
     = (Ok false,
        set_pid_files
          (after_steps (save_tunnel_pid_ops ctx_acme (Some 4242)) 1 acme_world)
          (delete ctx_acme
             (pid_files (after_steps (save_tunnel_pid_ops ctx_acme (Some 4242)) 1
                           acme_world))))
  /\ (let v := network_files
                 (after_steps (save_network_metadata_ops true ctx_acme
                                 (Some "sshuttle"%string) (Some cidr_90) None false
                                 (Some "10.0.5.20"%string)) 1 acme_world) !! ctx_acme in
      v = Some NetEmpty
      /\ fst (get_network_metadata true ctx_acme
               (after_steps (save_network_metadata_ops true ctx_acme
                               (Some "sshuttle"%string) (Some cidr_90) None false
                               (Some "10.0.5.20"%string)) 1 acme_world)) = Ok None)
  /\ (let v := network_files
                 (after_steps (save_network_metadata_ops true ctx_acme
                                 (Some "sshuttle"%string) (Some cidr_90) None false
                                 (Some "10.0.5.20"%string)) 2 acme_world) !! ctx_acme in
      v <> network_files acme_world !! ctx_acme
      /\ v = Some (NetDoc (network_metadata_doc (Some "sshuttle"%string) (Some cidr_90)
                                                None false (Some "10.0.5.20"%string)))).
Proof.
  destruct (state_store_writes_in_place no_such_process true ctx_acme 4242
              (Some "sshuttle"%string) (Some cidr_90) None false
              (Some "10.0.5.20"%string) acme_world 1)
    as (Hpid & Hnet1 & _ & Hstale & Hempty).
  destruct (state_store_writes_in_place no_such_process true ctx_acme 4242
              (Some "sshuttle"%string) (Some cidr_90) None false
              (Some "10.0.5.20"%string) acme_world 2)
    as (_ & Hnet2 & _).
  cbv zeta in Hnet1, Hnet2 |- *.
  split; [exact Hpid|]. split; [apply Hstale; vm_compute; reflexivity|].
  split.
  - assert (Hv : network_files
                   (after_steps (save_network_metadata_ops true ctx_acme
                                   (Some "sshuttle"%string) (Some cidr_90) None false
                                   (Some "10.0.5.20"%string)) 1 acme_world) !! ctx_acme
                 = Some NetEmpty)
      by (destruct Hnet1 as [H | [H | H]]; [vm_compute in H; discriminate
                                           | exact H
                                           | vm_compute in H; discriminate]).
    split; [exact Hv|]. apply Hempty. exact Hv.
  - destruct Hnet2 as [H | [H | H]]; [vm_compute in H; discriminate
                                     | vm_compute in H; discriminate|].
    split; [rewrite H; vm_compute; discriminate|exact H].
Defined.

Lemma connect_cluster_twice_idempotent_witness :
  let connect := connect_cluster all_alive ssh_ok_nothing_found true
                   16443 10000 6443 acme_cluster in
  let expected := mk_conn_result true
                    (company acme_cluster ++ "-" ++ host_alias acme_cluster)%string
                    (Some (get_unique_port
                             (company acme_cluster ++ "-" ++ host_alias acme_cluster)
                             16443 10000))
                    (Some (cluster_internal_ip acme_cluster)) (Some 4242) None in
  let '(r1, w1) := connect acme_world in
  let '(r2, w2) := connect w1 in
  r1 = Ok expected /\ r2 = Ok expected
  /\ pid_files w2 = pid_files acme_world
  /\ pid_files w2 !! (company acme_cluster ++ "-" ++ host_alias acme_cluster)%string
     = Some "4242"%string
  /\ proc_log w2 = proc_log acme_world.
Proof.
  apply (connect_cluster_twice_idempotent all_alive ssh_ok_nothing_found true
           16443 10000 6443 acme_cluster acme_world "4242" 4242);
    vm_compute; reflexivity.
Defined.

Lemma get_current_context_absent_on_failure_witness :
  timeout current_context_cmd = Some 5
  /\ get_current_context (fun _ => Raised TimeoutExpired) empty_world
     = (Ok None, log_command empty_world current_context_cmd).
Proof.
  apply (get_current_context_absent_on_failure (fun _ => Raised TimeoutExpired)
           empty_world).
  right. left. reflexivity.
Defined.

Lemma unparseable_pid_record_is_stale_witness :
  is_tunnel_running all_alive ctx_acme garbled_world
  = (Ok false, set_pid_files garbled_world (delete ctx_acme (pid_files garbled_world)))
  /\ get_tunnel_pid all_alive ctx_acme garbled_world = (Ok None, garbled_world).
Proof.
  apply (unparseable_pid_record_is_stale all_alive ctx_acme "not-a-pid"
           garbled_world); vm_compute; reflexivity.
Defined.

Lemma saved_pid_reads_back_witness :
  let w1 := snd (save_tunnel_pid ctx_acme (Some 4242) empty_world) in
  pid_files w1 !! ctx_acme = Some (z_to_dec 4242)
  /\ is_tunnel_running alive_4242 ctx_acme w1 = (Ok true, w1)
  /\ get_tunnel_pid alive_4242 ctx_acme w1 = (Ok (Some 4242), w1).
Proof.
  apply (saved_pid_reads_back alive_4242 ctx_acme 4242 empty_world);
    vm_compute; [discriminate|reflexivity].
Defined.

Lemma list_all_contexts_entries_witness :
  stale_errors_only alive_4242 fleet_world
  /\ exists l w', list_all_contexts alive_4242 true fleet_world = (Ok l, w')
     /\ Sorted name_le l /\ NoDup (map name l).
Proof.
  assert (H : stale_errors_only alive_4242 fleet_world).
  { intros ctx text p e _ _ Hk. unfold alive_4242 in Hk.
    destruct (p =? 4242); [discriminate|]. injection Hk as <-. reflexivity. }
  split; [exact H|].
  destruct (list_all_contexts_entries alive_4242 true fleet_world H)
    as (l & w' & Hl & Hs & Hn & _).
  exists l, w'. auto.
Defined.

Lemma list_all_contexts_prunes_stale_witness :
  exists l w', list_all_contexts alive_4242 true fleet_world = (Ok l, w')
  /\ pid_files w' !! ctx_acme = Some "4242"%string
  /\ pid_files w' !! "beta-db1"%string = None
  /\ pid_files w' !! "zeta-web"%string = None.
Proof.
  assert (H : stale_errors_only alive_4242 fleet_world).
  { intros ctx text p e _ _ Hk. unfold alive_4242 in Hk.
    destruct (p =? 4242); [discriminate|]. injection Hk as <-. reflexivity. }
  destruct (list_all_contexts_prunes_stale alive_4242 true fleet_world H)
    as (l & w' & Hl & Hp & _).
  exists l, w'. split; [exact Hl|].
  rewrite !Hp. vm_compute. auto.
Defined.

Lemma uncaught_kill_error_propagates_witness :
  is_tunnel_running pid_t_kill "zeta-web" overflow_world = (Err OverflowError, overflow_world)
  /\ get_tunnel_pid pid_t_kill "zeta-web" overflow_world = (Err OverflowError, overflow_world)
  /\ exists e' w', list_all_contexts pid_t_kill true overflow_world = (Err e', w').
Proof.
  apply (uncaught_kill_error_propagates pid_t_kill true "zeta-web" "99999999999"
           99999999999 OverflowError overflow_world); vm_compute; reflexivity.
Defined.

Lemma kill_all_tunnels_clears_records_witness :
  let '(r, w') := kill_all_tunnels all_alive fleet_world in
  r = Ok tt /\ pid_files w' = ∅
  /\ network_files w' = network_files fleet_world /\ proc_log w' = proc_log fleet_world
  /\ list_all_contexts all_alive true w' = (Ok [], w').
Proof.
  apply (kill_all_tunnels_clears_records all_alive true fleet_world).
  intros ctx text p _ _. exact I.
Defined.

Lemma kill_all_tunnels_stops_at_uncaught_witness :
  let '(r, w') := kill_all_tunnels pid_t_kill overflow_world in
  r = Err OverflowError
  /\ pid_files w' !! "zeta-web"%string = None
  /\ (forall c, c ∈ [ctx_acme] -> pid_files w' !! c = None)
  /\ (forall c, c ∈ ["beta-db1"%string] -> pid_files w' !! c = pid_files overflow_world !! c).
Proof.
  apply (kill_all_tunnels_stops_at_uncaught pid_t_kill overflow_world [ctx_acme]
           ["beta-db1"%string] "zeta-web" "99999999999" 99999999999 OverflowError);
    [vm_compute; reflexivity| |vm_compute; reflexivity..].
  intros c Hc. apply list_elem_of_singleton in Hc. subst c.
  intros text p Hr Hp. vm_compute in Hr. injection Hr as <-.
  vm_compute in Hp. injection Hp as <-. reflexivity.
Defined.

Lemma main_connect_reminders_witness :
  main_connect all_alive ssh_fails_for_prod1 true 16443 10000 6443 demo_clusters
    empty_world = demo_main
  /\ match demo_main with
     | (Ok (Connected results _ _ reminders), _) =>
         NoDup reminders
         /\ forall s, s ∈ reminders <->
              exists c r, (c, r) ∈ combine demo_clusters results /\ success r = true
                          /\ reminder_cmd c = Some s
     | _ => False
     end.
Proof.
  assert (H : main_connect all_alive ssh_fails_for_prod1 true 16443 10000 6443
                demo_clusters empty_world = demo_main) by (vm_compute; reflexivity).
  split; [exact H|].
  exact (main_connect_reminders all_alive ssh_fails_for_prod1 true 16443 10000 6443
           demo_clusters empty_world _ _ _ _ _ H).
Defined.

Lemma main_connect_first_success_witness :
  connect_all all_alive ssh_fails_for_prod1 true 16443 10000 6443 demo_clusters
    empty_world = demo_connect_all
  /\ match demo_connect_all with
     | (Ok [r_acme; r_beta; _], w1) =>
         success r_acme = false /\ success r_beta = true
         /\ snd (main_connect all_alive ssh_fails_for_prod1 true 16443 10000 6443
                   demo_clusters empty_world)
            = log_command w1 (use_context_cmd "beta-db1")
     | _ => False
     end.
Proof.
  assert (H : connect_all all_alive ssh_fails_for_prod1 true 16443 10000 6443
                demo_clusters empty_world = demo_connect_all) by (vm_compute; reflexivity).
  split; [exact H|].
  destruct (main_connect_first_success all_alive ssh_fails_for_prod1 true 16443 10000
              6443 demo_clusters empty_world _ _ H) as [_ H2].
  split; [reflexivity|]. split; [reflexivity|].
  refine (proj1 (H2 [_] _ [_] eq_refl _ eq_refl)). repeat constructor.
Defined.

Lemma connect_cluster_ssh_failure_witness :
  connect_cluster all_alive ssh_fails_for_prod1 true 16443 10000 6443 acme_cluster
    empty_world
  = (Ok (mk_conn_result false "acme-prod1" (Some 19107) (Some "10.0.5.20"%string) None
           (Some (RuntimeError "Failed to create SSH tunnel: Connection refused"))),
     log_command empty_world (ssh_tunnel_cmd "prod1" "10.0.5.20" 19107 6443)).
Proof.
  pose proof (connect_cluster_ssh_failure all_alive ssh_fails_for_prod1 true 16443 10000
                6443 acme_cluster empty_world eq_refl) as H.
  assert (Hport : get_unique_port "acme-prod1" 16443 10000 = 19107)
    by (vm_compute; reflexivity).
  cbv zeta in H. change (company acme_cluster ++ "-" ++ host_alias acme_cluster)%string
    with "acme-prod1"%string in H.
  rewrite Hport in H. exact (H ltac:(discriminate)).
Defined.

Lemma connect_cluster_spawn_records_pid_witness :
  let connect := connect_cluster alive_4242 ssh_ok_pid_found true 16443 10000 6443
                   acme_cluster in
  let expected := mk_conn_result true "acme-prod1" (Some 19107)
                    (Some "10.0.5.20"%string) (Some 4242) None in
  let '(r1, w1) := connect garbled_world in
  let '(r2, w2) := connect w1 in
  r1 = Ok expected
  /\ pid_files w1 !! ctx_acme = Some "4242"%string
  /\ r2 = Ok expected /\ pid_files w2 = pid_files w1 /\ proc_log w2 = proc_log w1.
Proof.
  assert (Hport : get_unique_port "acme-prod1" 16443 10000 = 19107)
    by (vm_compute; reflexivity).
  pose proof (connect_cluster_spawn_records_pid alive_4242 ssh_ok_pid_found true 16443
                10000 6443 acme_cluster garbled_world "" "" 0 ("4242" ++ nl) "" 4242)
    as H.
  cbv zeta in H |- *.
  change (company acme_cluster ++ "-" ++ host_alias acme_cluster)%string
    with "acme-prod1"%string in H.
  rewrite Hport in H. apply H; vm_compute; try reflexivity. discriminate.
Defined.

Lemma validate_context_network_no_metadata_witness :
  validate_context_network ssh_ok_nothing_found false ctx_acme acme_world
  = (Ok (true, None), acme_world).
Proof.
  apply validate_context_network_no_metadata. right. right. right. right. reflexivity.
Defined.

Lemma extract_hosts_last_group_wins_witness :
  exists hosts, extract_hosts_from_inventory (YamlMap demo_inventory) = PyOk hosts
  /\ NoDup (map fst hosts)
  /\ ylookup hosts "h1" = Some (mk_host_entry "db" (YamlMap [("ansible_host", YamlStr "10.0.0.1")]))
  /\ ylookup hosts "h2" = Some (mk_host_entry "web" (YamlMap [("ansible_host", YamlStr "10.0.0.2")])).
Proof.
  destruct (extract_hosts_last_group_wins demo_inventory
              [("children", YamlMap
                  [("web", YamlMap [("hosts", YamlMap
                      [("h1", YamlNull); ("h2", YamlMap [("ansible_host", YamlStr "10.0.0.2")])])]);
                   ("db", YamlMap [("hosts", YamlMap
                      [("h1", YamlMap [("ansible_host", YamlStr "10.0.0.1")])])])])]
              [("web", YamlMap [("hosts", YamlMap
                  [("h1", YamlNull); ("h2", YamlMap [("ansible_host", YamlStr "10.0.0.2")])])]);
               ("db", YamlMap [("hosts", YamlMap
                  [("h1", YamlMap [("ansible_host", YamlStr "10.0.0.1")])])])])
    as (hosts & Hx & Hnd & Hlk); [reflexivity|reflexivity| |].
  - intros gd hs Hgd Hhs.
    repeat (apply elem_of_cons in Hgd as [->|Hgd]; [vm_compute in Hhs; injection Hhs as <-;
                                                    apply (bool_decide_unpack _); vm_compute; reflexivity|]).
    apply elem_of_nil in Hgd. contradiction.
  - exists hosts. split; [exact Hx|]. split; [exact Hnd|]. split.
    + apply Hlk. exists [("web", YamlMap [("hosts", YamlMap
                  [("h1", YamlNull); ("h2", YamlMap [("ansible_host", YamlStr "10.0.0.2")])])])].
      eexists _, [], _, _. split; [reflexivity|]. split; [reflexivity|].
      split; [reflexivity|]. split; [reflexivity|].
      intros gd' hs' Hgd'. apply elem_of_nil in Hgd'. contradiction.
    + apply Hlk. exists [].
      eexists _, _, _, _. split; [reflexivity|]. split; [reflexivity|].
      split; [reflexivity|]. split; [reflexivity|].
      intros gd' hs' Hgd' Hhs'. apply list_elem_of_singleton in Hgd'. subst gd'.
      vm_compute in Hhs'. injection Hhs' as <-. reflexivity.
Defined.
